(** * api-data-insure: the category matching service of [recommend.py]

    A shallow embedding of the Flask service in [src/recommend.py]: the
    synonym table [CATEGORY_SYNONYMS], the reverse index [CANONICAL], the
    text normaliser [normalize], the CSV loader and the three handlers
    that touch the cached data frame.  Python strings are sequences of
    Unicode code points; the handlers are state-passing functions over the
    module-level [df_cache]. *)

From Stdlib Require Import ZArith NArith List Bool Lia.
From Stdlib Require Import Strings.String Strings.Ascii.
From stdpp Require Import base option list gmap.

Open Scope N_scope.

(** ** Python strings *)

(** A [str] is a sequence of code points. *)
Definition pystr : Type := list N.

Module Utf8.

(** Literals are written as Rocq strings, i.e. as the UTF-8 bytes of the
    Python literal, and decoded to code points here.  [need] is the number
    of continuation bytes still expected and [acc] the bits read so far. *)
Fixpoint decode_from (need : nat) (acc : N) (bs : list N) : pystr :=
  match bs with
  | [] => []
  | b :: bs' =>
      match need with
      | O =>
          if b <? 128 then b :: decode_from 0 0 bs'
          else if b <? 224 then decode_from 1 (b - 192) bs'
          else if b <? 240 then decode_from 2 (b - 224) bs'
          else decode_from 3 (b - 240) bs'
      | S O => (acc * 64 + (b - 128)) :: decode_from 0 0 bs'
      | S n => decode_from n (acc * 64 + (b - 128)) bs'
      end
  end.

Definition bytes (s : string) : list N :=
  List.map N_of_ascii (list_ascii_of_string s).

Definition decode (s : string) : pystr := decode_from 0 0 (bytes s).

End Utf8.

Notation "'u' s" := (Utf8.decode s%string) (at level 1, s at level 0, only parsing).

(** ** Built-in string operations *)

Module Py.

(** [str.isspace] on one code point. *)
Definition is_space (c : N) : bool :=
  ((9 <=? c) && (c <=? 13)) || ((28 <=? c) && (c <=? 32))
  || (c =? 133) || (c =? 160) || (c =? 5760)
  || ((8192 <=? c) && (c <=? 8202))
  || (c =? 8232) || (c =? 8233) || (c =? 8239) || (c =? 8287) || (c =? 12288).

Definition is_ascii (c : N) : bool := c <? 128.

(** [str.lower], code point by code point.  Besides A-Z the only cased
    code point whose lower case is an ASCII letter is the Kelvin sign;
    every other cased letter lowers to code points outside ASCII, which
    this program only ever compares with ASCII text, so it is kept. *)
Definition lower_cp (c : N) : N :=
  if (65 <=? c) && (c <=? 90) then c + 32
  else if c =? 8490 then 107
  else c.

Definition lower (s : pystr) : pystr := List.map lower_cp s.

Fixpoint lstrip (s : pystr) : pystr :=
  match s with
  | [] => []
  | c :: s' => if is_space c then lstrip s' else s
  end.

Fixpoint rstrip (s : pystr) : pystr :=
  match s with
  | [] => []
  | c :: s' =>
      match rstrip s' with
      | [] => if is_space c then [] else [c]
      | t => c :: t
      end
  end.

(** [str.strip()] *)
Definition strip (s : pystr) : pystr := rstrip (lstrip s).

(** [a in x] for two strings. *)
Fixpoint is_prefix (a x : pystr) : bool :=
  match a, x with
  | [], _ => true
  | _ :: _, [] => false
  | c :: a', d :: x' => (c =? d) && is_prefix a' x'
  end.

Fixpoint contains (a x : pystr) : bool :=
  is_prefix a x ||
  match x with
  | [] => false
  | _ :: x' => contains a x'
  end.

(** [int(s)] for a string, as CPython 3.11 reads it: whitespace around the
    number is ignored, one sign is allowed, then come decimal digits with
    single underscores between them, and more than 4300 digits are
    refused.  [None] stands for [ValueError].

    The whitespace [int()] ignores is that of [str.isspace] without the
    four separators U+001C..U+001F. *)
Definition is_int_space (c : N) : bool :=
  is_space c && negb ((28 <=? c) && (c <=? 31)).

(** The digits are the decimal digits of Unicode 14.0: 66 runs of ten
    code points, each run counting from zero; these are the zeros. *)
Definition decimal_zeros : list N :=
  [ 48; 1632; 1776; 1984; 2406; 2534; 2662; 2790; 2918; 3046; 3174; 3302; 3430;
    3558; 3664; 3792; 3872; 4160; 4240; 6112; 6160; 6470; 6608; 6784; 6800; 6992;
    7088; 7232; 7248; 42528; 43216; 43264; 43472; 43504; 43600; 44016; 65296;
    66720; 68912; 69734; 69872; 69942; 70096; 70384; 70736; 70864; 71248; 71360;
    71472; 71904; 72016; 72784; 73040; 73120; 92768; 92864; 93008; 120782; 120792;
    120802; 120812; 120822; 123200; 123632; 125264; 130032 ].

Definition digit_of (c : N) : option Z :=
  match List.find (fun zero => (zero <=? c) && (c <? zero + 10)) decimal_zeros with
  | Some zero => Some (Z.of_N (c - zero))
  | None => None
  end.

Definition is_digit (c : N) : bool :=
  match digit_of c with
  | Some _ => true
  | None => false
  end.

Fixpoint digits_from (acc : Z) (after_digit : bool) (s : pystr) : option Z :=
  match s with
  | [] => if after_digit then Some acc else None
  | c :: s' =>
      if c =? 95 then
        if after_digit then digits_from acc false s' else None
      else
        match digit_of c with
        | Some d => digits_from (10 * acc + d)%Z true s'
        | None => None
        end
  end.

Fixpoint lstrip_by (space : N -> bool) (s : pystr) : pystr :=
  match s with
  | [] => []
  | c :: s' => if space c then lstrip_by space s' else s
  end.

Fixpoint rstrip_by (space : N -> bool) (s : pystr) : pystr :=
  match s with
  | [] => []
  | c :: s' =>
      match rstrip_by space s' with
      | [] => if space c then [] else [c]
      | t => c :: t
      end
  end.

(** [sys.get_int_max_str_digits()] *)
Definition max_str_digits : N := 4300.

Definition int_of_str (s : pystr) : option Z :=
  let t := rstrip_by is_int_space (lstrip_by is_int_space s) in
  let signed :=
    match t with
    | [] => (false, [])
    | c :: t' =>
        if c =? 45 then (true, t')
        else if c =? 43 then (false, t')
        else (false, t)
    end in
  if max_str_digits <? N.of_nat (length (List.filter is_digit signed.2)) then None
  else
    match digits_from 0 false signed.2 with
    | Some v => Some (if signed.1 then (- v)%Z else v)
    | None => None
    end.

(** A [float]: a finite dyadic [m * 2^e], an infinity or a NaN. *)
Inductive float :=
| Finite (m e : Z)
| Inf (negative : bool)
| NaN.

(** [int(x)] for a float truncates towards zero; it raises
    [OverflowError] on an infinity and [ValueError] on a NaN. *)
Definition int_of_float (x : float) : option Z :=
  match x with
  | Finite m e =>
      Some (if (0 <=? e)%Z then m * 2 ^ e else Z.quot m (2 ^ (- e)))%Z
  | Inf _ => None
  | NaN => None
  end.

(** An object as far as [str()] sees it: [None], a [str], or anything
    else, known by the text [str()] returns for it. *)
Inductive obj :=
| None_
| Str (s : pystr)
| Other (text : pystr).

Definition str (o : obj) : pystr :=
  match o with
  | None_ => u"None"
  | Str s => s
  | Other t => t
  end.

(** The float NaN pandas puts in an empty cell; [str(float('nan'))] is
    ['nan']. *)
Definition nan : obj := Other u"nan".

End Py.

(** ** unidecode *)

Module Unidecode.

(** unidecode copies ASCII and replaces any other code point by the ASCII
    text its data tables hold for it.  [table] has the rows for the
    Vietnamese alphabet (Latin-1, Latin Extended-A and -B, Latin Extended
    Additional) and for the combining marks, which transliterate to
    nothing; the other rows are not reproduced and read as the empty
    string here, which is not what the library holds for them.  For that
    reason the properties below that speak of every string are stated
    over any table that [extends] the rows given here, or proved for any
    table whose entries are ASCII, and the others are restricted to text
    in the alphabet that is [known] here. *)
Definition upper_or_lower (c : N) (base : N) : pystr :=
  if N.even c then [base] else [base + 32].

Definition latin1 (c : N) : pystr :=
  let body (d : N) : pystr :=
    if d <=? 5 then [65]                      (* À Á Â Ã Ä Å *)
    else if (8 <=? d) && (d <=? 11) then [69]  (* È É Ê Ë *)
    else if (12 <=? d) && (d <=? 15) then [73] (* Ì Í Î Ï *)
    else if (18 <=? d) && (d <=? 22) then [79] (* Ò Ó Ô Õ Ö *)
    else if (25 <=? d) && (d <=? 28) then [85] (* Ù Ú Û Ü *)
    else if d =? 29 then [89]                  (* Ý *)
    else [] in
  if (192 <=? c) && (c <=? 223) then body (c - 192)
  else if (224 <=? c) && (c <=? 255) then List.map (fun b => b + 32) (body (c - 224))
  else [].

Definition table (c : N) : pystr :=
  if c <? 192 then []
  else if c <=? 255 then latin1 c
  else if (c =? 258) || (c =? 259) then upper_or_lower c 65        (* Ă ă *)
  else if (c =? 272) || (c =? 273) then upper_or_lower c 68        (* Đ đ *)
  else if (c =? 296) || (c =? 297) then upper_or_lower c 73        (* Ĩ ĩ *)
  else if (c =? 360) || (c =? 361) then upper_or_lower c 85        (* Ũ ũ *)
  else if (c =? 416) || (c =? 417) then upper_or_lower c 79        (* Ơ ơ *)
  else if c =? 431 then [85] else if c =? 432 then [117]           (* Ư ư *)
  else if (768 <=? c) && (c <=? 879) then []                       (* combining marks *)
  else if (7840 <=? c) && (c <=? 7863) then upper_or_lower c 65    (* Ạ .. ặ *)
  else if (7864 <=? c) && (c <=? 7879) then upper_or_lower c 69    (* Ẹ .. ệ *)
  else if (7880 <=? c) && (c <=? 7883) then upper_or_lower c 73    (* Ỉ .. ị *)
  else if (7884 <=? c) && (c <=? 7907) then upper_or_lower c 79    (* Ọ .. ợ *)
  else if (7908 <=? c) && (c <=? 7921) then upper_or_lower c 85    (* Ụ .. ự *)
  else if (7922 <=? c) && (c <=? 7929) then upper_or_lower c 89    (* Ỳ .. ỹ *)
  else [].

(** The code points beyond ASCII whose row is given above: the letters,
    and the tone marks of decomposed Vietnamese text. *)
Definition tone_marks : list N := [768; 769; 770; 771; 774; 777; 795; 803].

Definition rows_given (c : N) : bool :=
  match table c with
  | [] => existsb (N.eqb c) tone_marks
  | _ => true
  end.

(** A full table of the library agrees with the rows given. *)
Definition extends (tbl : N -> pystr) : Prop :=
  forall c, rows_given c = true -> tbl c = table c.

(** The alphabet on which transliteration is reproduced here. *)
Definition known (c : N) : bool := Py.is_ascii c || rows_given c.

Definition unidecode_cp (tbl : N -> pystr) (c : N) : pystr :=
  if Py.is_ascii c then [c] else tbl c.

Definition unidecode_with (tbl : N -> pystr) (s : pystr) : pystr :=
  flat_map (unidecode_cp tbl) s.

Definition unidecode (s : pystr) : pystr := unidecode_with table s.

End Unidecode.

Import Unidecode.

(** ** The normaliser *)

(** [normalize], lines 62-63. *)
Definition normalize (s : Py.obj) : pystr :=
  match s with
  | Py.None_ => []
  | _ => Py.strip (Py.lower (unidecode (Py.str s)))
  end.

(** ** The synonym registry *)

(** [CATEGORY_SYNONYMS], lines 15-52: a dict literal, kept in declaration
    order because the loop that builds [CANONICAL] walks it in that
    order. *)
Definition CATEGORY_SYNONYMS : list (pystr * list pystr) :=
  [ (u"accident",
      [ u"tai nan"; u"tai-nan"; u"tai nạn"; u"tai nạn cá nhân"; u"tai nạn lao động";
        u"personal accident"; u"accident"; u"pa"; u"tai nạn 24/7" ]);
    (u"health",
      [ u"suc khoe"; u"sức khỏe"; u"suc-khoe"; u"health"; u"medical"; u"healthcare";
        u"chăm sóc sức khỏe"; u"viện phí"; u"benh vien"; u"hospitalization" ]);
    (u"life",
      [ u"nhân thọ"; u"nhan tho"; u"nhan-tho"; u"life"; u"life insurance";
        u"term life"; u"whole life"; u"bảo vệ tài chính"; u"bảo vệ gia đình" ]);
    (u"critical illness",
      [ u"bệnh hiểm nghèo"; u"critical illness"; u"ci"; u"ung thư"; u"cancer";
        u"tim mạch"; u"đột quỵ"; u"tai biến"; u"man tinh"; u"mãn tính"; u"bệnh nặng";
        u"bệnh nghiêm trọng" ]);
    (u"hospital",
      [ u"bệnh viện"; u"benh vien"; u"hospital"; u"hospitalization"; u"nằm viện";
        u"viện phí"; u"medical cost"; u"inpatient"; u"outpatient"; u"ngoại trú";
        u"nội trú"; u"phẫu thuật"; u"surgery" ]);
    (u"children",
      [ u"trẻ em"; u"trẻ con"; u"trẻ nhỏ"; u"child"; u"children"; u"kid"; u"kids";
        u"bảo hiểm trẻ em"; u"student insurance"; u"baby"; u"mầm non"; u"học sinh" ]);
    (u"travel",
      [ u"du lịch"; u"du-lich"; u"travel"; u"travel insurance"; u"trip"; u"holiday";
        u"tour"; u"overseas"; u"bảo hiểm du lịch"; u"bảo hiểm quốc tế" ]);
    (u"dental",
      [ u"nha khoa"; u"dental"; u"răng"; u"răng miệng"; u"chăm sóc răng";
        u"chỉnh nha"; u"niềng răng"; u"nha sĩ"; u"trám răng"; u"làm răng";
        u"nha khoa thẩm mỹ" ]);
    (u"vision",
      [ u"thị lực"; u"mắt"; u"kính"; u"mắt kính"; u"vision"; u"eye"; u"eye care";
        u"optical"; u"optometry"; u"khám mắt"; u"bảo hiểm mắt" ]) ].

(** The key under which line 58 files a synonym: transliterated and
    lowercased, not stripped. *)
Definition canonical_key (s : pystr) : pystr := Py.lower (unidecode s).

(** The loop of lines 55-58, over any table: every synonym of every
    category is filed under its key, overwriting what was there. *)
Definition register_category (m : gmap pystr pystr) (entry : pystr * list pystr)
  : gmap pystr pystr :=
  foldl (fun m s => <[canonical_key s := entry.1]> m) m entry.2.

Definition build_canonical (table : list (pystr * list pystr)) : gmap pystr pystr :=
  foldl register_category ∅ table.

Definition CANONICAL : gmap pystr pystr := build_canonical CATEGORY_SYNONYMS.

(** [d.get(k)] on the dict literal. *)
Fixpoint dict_get (d : list (pystr * list pystr)) (k : pystr) : option (list pystr) :=
  match d with
  | [] => None
  | (k', v) :: d' => if decide (k' = k) then Some v else dict_get d' k
  end.

(** Line 135: [CANONICAL.get(normalize(c), normalize(c))]. *)
Definition resolve (c : Py.obj) : pystr :=
  default (normalize c) (CANONICAL !! normalize c).

(** The same lines over any transliteration table [tbl]: [normalize]
    (lines 62-63), the key and the loop of lines 55-58, and line 135. *)
Definition normalize_with (tbl : N -> pystr) (s : Py.obj) : pystr :=
  match s with
  | Py.None_ => []
  | _ => Py.strip (Py.lower (Unidecode.unidecode_with tbl (Py.str s)))
  end.

Definition canonical_key_with (tbl : N -> pystr) (s : pystr) : pystr :=
  Py.lower (Unidecode.unidecode_with tbl s).

Definition register_category_with (tbl : N -> pystr)
    (m : gmap pystr pystr) (entry : pystr * list pystr) : gmap pystr pystr :=
  foldl (fun m s => <[canonical_key_with tbl s := entry.1]> m) m entry.2.

Definition build_canonical_with (tbl : N -> pystr) (table : list (pystr * list pystr))
  : gmap pystr pystr :=
  foldl (register_category_with tbl) ∅ table.

Definition resolve_with (tbl : N -> pystr) (c : Py.obj) : pystr :=
  let CANONICAL := build_canonical_with tbl CATEGORY_SYNONYMS in
  default (normalize_with tbl c) (CANONICAL !! normalize_with tbl c).

(** ** Data frames *)

(** A pandas [DataFrame] as this program uses it: named columns and rows
    of cells.  A text cell is a [Py.Str], an empty CSV cell is [Py.nan],
    any other cell is known by its [str()]. *)
Record DataFrame := {
  columns : list pystr;
  rows : list (list Py.obj)
}.

Module Frame.

Fixpoint index_of (name : pystr) (cols : list pystr) : option nat :=
  match cols with
  | [] => None
  | c :: cols' => if decide (c = name) then Some O else S <$> index_of name cols'
  end.

(** ["name" in df.columns] *)
Definition has_column (name : pystr) (df : DataFrame) : bool :=
  bool_decide (is_Some (index_of name (columns df))).

(** [df[name]]: the cells of one column, or [KeyError]. *)
Definition get_column (name : pystr) (df : DataFrame) : option (list Py.obj) :=
  i ← index_of name (columns df);
  Some (List.map (fun r => nth i r Py.nan) (rows df)).

(** [df[name] = values]: replaces the column if there is one of that
    name, appends it otherwise. *)
Definition set_column (name : pystr) (values : list Py.obj) (df : DataFrame) : DataFrame :=
  match index_of name (columns df) with
  | Some i =>
      {| columns := columns df;
         rows := zip_with (fun r v => <[i := v]> r) (rows df) values |}
  | None =>
      {| columns := columns df ++ [name];
         rows := zip_with (fun r v => r ++ [v]) (rows df) values |}
  end.

(** [df[mask]] *)
Definition select (mask : list bool) (df : DataFrame) : DataFrame :=
  {| columns := columns df;
     rows := List.map snd (List.filter fst (zip mask (rows df))) |}.

(** [df.head(n)] for [n > 0] *)
Definition head (n : Z) (df : DataFrame) : DataFrame :=
  {| columns := columns df; rows := firstn (Z.to_nat n) (rows df) |}.

(** [df[cols].to_dict(orient="records")], where [cols] are the columns
    satisfying [keep]. *)
Definition record (keep : pystr -> bool) (cols : list pystr) (r : list Py.obj)
  : list (pystr * Py.obj) :=
  List.filter (fun kv => keep kv.1) (zip cols r).

Definition to_records (keep : pystr -> bool) (df : DataFrame)
  : list (list (pystr * Py.obj)) :=
  List.map (record keep (columns df)) (rows df).

End Frame.

(** ** Regular expressions and [Series.str.contains] *)

(** The compiled pattern of line 145, [(a1|a2|...)] with every alternative
    passed through [re.escape]: it is known by its literal alternatives. *)
Inductive re_pattern := Alternation (alts : list pystr).

(** [pat.search(x) is not None]: some alternative occurs in [x]. *)
Definition re_search (pat : re_pattern) (x : pystr) : bool :=
  match pat with
  | Alternation alts => existsb (fun a => Py.contains a x) alts
  end.

(** [Series.str.contains(pat, na=na, regex=regex)] on one element, for a
    compiled [pat].  With [regex=True] pandas searches with the pattern.
    With [regex=False] it evaluates [pat in x], which for a compiled
    pattern on the left raises [TypeError]; the object-dtype string
    methods catch that per element and put the [na] value there.  An
    element that is not a string gets [na] as well. *)
Definition str_contains (pat : re_pattern) (na regex : bool) (x : Py.obj) : bool :=
  match x with
  | Py.Str s => if regex then re_search pat s else na
  | _ => na
  end.

(** ** The data source and the loader *)

Inductive encoding := utf_8 | utf_8_sig | cp1258 | cp1252.

(** The file at [DATA_PATH]: whether it exists and what
    [pd.read_csv(path, encoding=enc)] gives for each encoding, [None] when
    it raises. *)
Record source := {
  path_exists : bool;
  read_csv : encoding -> option DataFrame
}.

Inductive exn :=
| FileNotFoundError
| RuntimeError             (* no encoding could read the CSV *)
| ValueError_no_category   (* the CSV has no Category column *)
| ValueError               (* int() of a NaN *)
| OverflowError            (* int() of an infinity *)
| TypeError
| AttributeError
| KeyError
| RecursionError           (* the JSON decoder on a body nested too deeply *)
| NotLoaded.               (* not raised: the detail of line 114 *)

Definition result (A : Type) : Type := exn + A.

Definition raise {A} (e : exn) : result A := inl e.
Definition ret {A} (a : A) : result A := inr a.
Definition bind {A B} (r : result A) (k : A -> result B) : result B :=
  match r with
  | inl e => inl e
  | inr a => k a
  end.

Notation "'let!' x ':=' r 'in' k" := (bind r (fun x => k))
  (at level 10, x name, r at level 100, k at level 200).

(** [_read_csv_any], lines 65-72. *)
Fixpoint first_readable (src : source) (encs : list encoding) : result DataFrame :=
  match encs with
  | [] => raise RuntimeError
  | enc :: encs' =>
      match read_csv src enc with
      | Some df => ret df
      | None => first_readable src encs'
      end
  end.

Definition _read_csv_any (src : source) : result DataFrame :=
  first_readable src [utf_8; utf_8_sig; cp1258; cp1252].

Definition hidden : pystr := u"_category_n".

(** [load_csv], lines 74-83.  The membership test of line 79 and the
    column access of line 82 are one lookup here. *)
Definition load_csv (src : source) : result DataFrame :=
  if negb (path_exists src) then raise FileNotFoundError
  else
    let! df := _read_csv_any src in
    match Frame.get_column u"Category" df with
    | None => raise ValueError_no_category
    | Some category =>
        ret (Frame.set_column hidden
               (List.map (fun c => Py.Str (normalize c)) category) df)
    end.

(** ** Requests and responses *)

(** [body.get("limit", None)] after JSON decoding, by the branch of lines
    121-131 it takes. *)
Inductive limit_field :=
| LimAbsent                   (* no such key, or null *)
| LimStr (s : pystr)
| LimInt (z : Z)
| LimBool (b : bool)          (* bool is a subclass of int *)
| LimFloat (x : Py.float)
| LimOther.                   (* a list or an object *)

(** [body.get("categories")] after JSON decoding, by what line 117 and the
    loop of line 134 do with it. *)
Inductive categories_field :=
| CatFalsy                       (* absent, null, false, 0, an empty string, list or object *)
| CatItems (items : list Py.obj) (* what iterating a non-empty list, string or object yields *)
| CatScalar.                     (* true or a non-zero number: not iterable *)

(** [request.get_json(silent=True)].  The call returns [None] for a body
    that is not JSON or that the decoder rejects with a [ValueError]; it
    lets any other exception of the decoder through, which is what a body
    nested deeper than the decoder can recurse raises. *)
Inductive request_body :=
| BodyFalsy                      (* not JSON, not decodable, or a falsy value: [or {}] *)
| BodyDict (categories : categories_field) (limit : limit_field)
| BodyOther                      (* a non-empty list or string, true, a non-zero number *)
| BodyRaises.                    (* nested too deeply: [get_json] raises RecursionError *)

Definition record_t : Type := list (pystr * Py.obj).

Inductive response :=
| RecommendOk (items : list record_t)   (* 200 {"status": "ok", "count": len(items), "items": items} *)
| LoadedOk (n : nat)                    (* 200 {"status": "ok", "rows": n, "path": ...} *)
| Failure (http : nat) (detail : exn).  (* {"status": "error", "detail": ...}, http *)

Definition count (r : response) : option nat :=
  match r with
  | RecommendOk items => Some (length items)
  | _ => None
  end.

Definition is_error (r : response) : bool :=
  match r with
  | Failure _ _ => true
  | _ => false
  end.

(** ** The handlers *)

(** The module-level [df_cache]. *)
Definition cache : Type := option DataFrame.

(** [ensure_loaded], lines 85-89. *)
Definition ensure_loaded (src : source) (df_cache : cache) : result cache :=
  match df_cache with
  | None => let! df := load_csv src in ret (Some df)
  | Some _ => ret df_cache
  end.

(** [reload_csv], lines 100-107. *)
Definition reload_csv (src : source) (df_cache : cache) : response * cache :=
  match load_csv src with
  | inr df => (LoadedOk (length (rows df)), Some df)
  | inl e => (Failure 400 e, df_cache)
  end.

(** Lines 119-131: the limit, [None] for unlimited. *)
Definition positive_or_none (v : Z) : option Z :=
  if (v <=? 0)%Z then None else Some v.

Definition parse_limit (limit_raw : limit_field) : result (option Z) :=
  match limit_raw with
  | LimStr s =>
      if decide (Py.lower (Py.strip s) ≠ u"all") then
        match Py.int_of_str s with
        | Some v => ret (positive_or_none v)
        | None => ret None
        end
      else ret None
  | LimInt z => ret (positive_or_none z)
  | LimBool b => ret (positive_or_none (if b then 1 else 0))
  | LimFloat x =>
      match Py.int_of_float x with
      | Some v => ret (positive_or_none v)
      | None => raise (match x with Py.NaN => ValueError | _ => OverflowError end)
      end
  | LimAbsent | LimOther => ret None
  end.

(** Lines 133-135: the set of resolved categories. *)
Definition wanted_of (categories : list Py.obj) : gset pystr :=
  foldl (fun wanted c => wanted ∪ {[ resolve c ]}) ∅ categories.

(** Lines 140-143. *)
Definition expand (canon : pystr) : list pystr :=
  default [canon] (dict_get CATEGORY_SYNONYMS canon).

Definition truthy (s : pystr) : bool :=
  match s with
  | [] => false
  | _ => true
  end.

Definition syns_norm_of (wanted : list pystr) : list pystr :=
  List.map (fun s => normalize (Py.Str s))
    (List.filter truthy (flat_map expand wanted)).

(** Lines 137-146: the row mask.  [regex] is the flag handed to
    [str.contains] on line 146, where the source passes [False]. *)
Definition build_mask (regex : bool) (df_cache : DataFrame) (wanted : gset pystr)
  : result (list bool) :=
  let mask := List.map (fun _ => true) (rows df_cache) in
  match elements wanted with
  | [] => ret mask
  | canons =>
      match syns_norm_of canons with
      | [] => ret mask
      | syns_norm =>
          let cat_re := Alternation syns_norm in
          match Frame.get_column hidden df_cache with
          | None => raise KeyError
          | Some category_n =>
              ret (zip_with andb mask
                     (List.map (str_contains cat_re false regex) category_n))
          end
      end
  end.

Definition visible (c : pystr) : bool := bool_decide (c ≠ hidden).

(** Lines 116-153, the part of [recommend] that runs once the data frame
    is there. *)
Definition recommend_loaded (regex : bool) (df_cache : DataFrame) (body : request_body)
  : result (list record_t) :=
  let! fields :=
    match body with
    | BodyFalsy => ret (CatFalsy, LimAbsent)
    | BodyDict categories limit => ret (categories, limit)
    | BodyOther => raise AttributeError
    | BodyRaises => raise RecursionError
    end in
  let categories := fields.1 in
  let! limit := parse_limit fields.2 in
  let! items :=
    match categories with
    | CatFalsy => ret []
    | CatItems items => ret items
    | CatScalar => raise TypeError
    end in
  let wanted := wanted_of items in
  let! mask := build_mask regex df_cache wanted in
  let filtered := Frame.select mask df_cache in
  let results :=
    match limit with
    | None => filtered
    | Some n => Frame.head n filtered
    end in
  ret (Frame.to_records visible results).

(** [recommend], lines 109-155.  The cache filled by [ensure_loaded] stays
    filled when a later line raises. *)
Definition recommend (src : source) (df_cache : cache) (body : request_body)
  : response * cache :=
  match ensure_loaded src df_cache with
  | inl e => (Failure 500 e, df_cache)
  | inr None => (Failure 500 NotLoaded, None)
  | inr (Some df) =>
      match recommend_loaded false df body with
      | inr items => (RecommendOk items, Some df)
      | inl e => (Failure 500 e, Some df)
      end
  end.

(** [healthz], lines 91-98.  Its success body has the shape of the one
    [reload_csv] sends: a status and a row count. *)
Definition healthz (src : source) (df_cache : cache) : response * cache :=
  match ensure_loaded src df_cache with
  | inr loaded =>
      (LoadedOk (match loaded with
                 | Some df => length (rows df)
                 | None => 0
                 end), loaded)
  | inl e => (Failure 500 e, df_cache)
  end.

(** ** Auxiliary definitions for the statements *)

(** The keys one category files its synonyms under. *)
Definition keys_of (syns : list pystr) : list pystr := List.map canonical_key syns.

(** No synonym of [table] is filed under [k], pointwise and as a
    decidable [Forall]. *)
Definition no_key_in (table : list (pystr * list pystr)) (k : pystr) : Prop :=
  forall canon syns s, (canon, syns) ∈ table -> s ∈ syns -> canonical_key s ≠ k.

Definition undeclared_in (table : list (pystr * list pystr)) (k : pystr) : Prop :=
  Forall (fun entry => Forall (fun s => canonical_key s ≠ k) entry.2) table.

(** The normalised forms of all declared synonyms. *)
Definition declared_keys : list pystr :=
  List.map (fun s => normalize (Py.Str s)) (flat_map snd CATEGORY_SYNONYMS).

(** The synonyms ["health"] declares and ["hospital"] declares again. *)
Definition redeclared : list pystr :=
  [ u"viện phí"; u"benh vien"; u"hospitalization" ].

(** The category a synonym [s] declared under [canon] resolves to. *)
Definition resolved_category (canon s : pystr) : pystr :=
  if bool_decide (canon = u"health" /\ s ∈ redeclared) then u"hospital" else canon.

(** Example data: a CSV of five products, one of them without a category,
    and the data frame [load_csv] makes of it. *)
Definition products : DataFrame :=
  {| columns := [ u"Name"; u"Category" ];
     rows := [ [ Py.Str u"Gói A"; Py.Str u"Bảo hiểm sức khỏe toàn diện" ];
               [ Py.Str u"Plan B"; Py.Str u"Medical Plus" ];
               [ Py.Str u"Gói C"; Py.Str u"Bảo hiểm xe máy" ];
               [ Py.Str u"Plan D"; Py.nan ];
               [ Py.Str u"Gói E"; Py.Str u"Du lịch quốc tế" ] ] |}.

Definition products_loaded : DataFrame :=
  {| columns := [ u"Name"; u"Category"; u"_category_n" ];
     rows := [ [ Py.Str u"Gói A"; Py.Str u"Bảo hiểm sức khỏe toàn diện";
                 Py.Str u"bao hiem suc khoe toan dien" ];
               [ Py.Str u"Plan B"; Py.Str u"Medical Plus"; Py.Str u"medical plus" ];
               [ Py.Str u"Gói C"; Py.Str u"Bảo hiểm xe máy"; Py.Str u"bao hiem xe may" ];
               [ Py.Str u"Plan D"; Py.nan; Py.Str u"nan" ];
               [ Py.Str u"Gói E"; Py.Str u"Du lịch quốc tế"; Py.Str u"du lich quoc te" ] ] |}.

Definition products_csv : source :=
  {| path_exists := true; read_csv := fun _ => Some products |}.

Definition missing_csv : source :=
  {| path_exists := false; read_csv := fun _ => None |}.

(** A table without the [Category] column (the header is lowercase). *)
Definition malformed_csv : source :=
  {| path_exists := true;
     read_csv := fun _ =>
       Some {| columns := [ u"Name"; u"category" ];
               rows := [ [ Py.Str u"Plan B"; Py.Str u"Medical Plus" ] ] |} |}.

(** The limit only cuts the list that the same request without a limit
    returns. *)
Definition cut (limit : option Z) (items : list record_t) : list record_t :=
  match limit with
  | None => items
  | Some k => firstn (Z.to_nat k) items
  end.

(** The same on the handler: the response of the request with [limit_raw]
    is the response without a limit, cut. *)
Definition truncate (limit : option Z) (r : response * cache) : response * cache :=
  match r with
  | (RecommendOk items, c) => (RecommendOk (cut limit items), c)
  | _ => r
  end.

(** The matching rule in the words of the specification: some normalised
    synonym of some requested, resolved category occurs in the row's
    normalised category text. *)
Definition spec_matches (requested : list Py.obj) (category_n : pystr) : bool :=
  existsb
    (fun c =>
       existsb (fun syn => Py.contains (normalize (Py.Str syn)) category_n)
               (expand (resolve c)))
    requested.

(** A table with two more rows of the library, ñ and the em dash, to
    try the statements on text outside the known alphabet. *)
Definition latin_table (c : N) : pystr :=
  if c =? 241 then [110]
  else if c =? 8212 then [45; 45]
  else Unidecode.table c.

(** The characters a string that [int()] accepts is made of. *)
Definition int_char (c : N) : Prop :=
  Py.is_int_space c = true \/ c = 45 \/ c = 43 \/ c = 95 \/ Py.is_digit c = true.

(** Every row has one cell per column, as every pandas data frame has. *)
Definition rectangular (df : DataFrame) : Prop :=
  Forall (fun r => length r = length (columns df)) (rows df).

(** * Properties *)

(** ** Sanity checks of the embedding *)

Example utf8_ascii : u"tai nan" = [116; 97; 105; 32; 110; 97; 110].
Proof. reflexivity. Qed.

Example utf8_vietnamese : u"nạn" = [110; 7841; 110].
Proof. reflexivity. Qed.

Example strip_both : Py.strip u"  a b	" = u"a b".
Proof. reflexivity. Qed.

Example int_of_str_signed : Py.int_of_str u" -1_000 " = Some (-1000)%Z.
Proof. reflexivity. Qed.

Example int_of_str_bad : Py.int_of_str u"12a" = None.
Proof. reflexivity. Qed.

Example int_of_str_arabic_indic : Py.int_of_str u" ٣_٤ " = Some 34%Z.
Proof. reflexivity. Qed.

Example int_of_str_separator : Py.int_of_str [28; 50] = None.
Proof. reflexivity. Qed.

Example int_of_float_trunc : Py.int_of_float (Py.Finite 11 (-2)) = Some 2%Z.
Proof. reflexivity. Qed.

Example unidecode_suc_khoe : unidecode u"Sức Khỏe" = u"Suc Khoe".
Proof. reflexivity. Qed.

Example unidecode_dot_quy : unidecode u"đột quỵ; Đà Nẵng" = u"dot quy; Da Nang".
Proof. reflexivity. Qed.

Example resolve_suc_khoe : resolve (Py.Str u"Sức Khỏe ") = u"health".
Proof. vm_compute. reflexivity. Qed.

Example resolve_unknown : resolve (Py.Str u" Xe Máy") = u"xe may".
Proof. vm_compute. reflexivity. Qed.

Example resolve_benh_vien : resolve (Py.Str u"benh vien") = u"hospital".
Proof. vm_compute. reflexivity. Qed.

(** ** Stripping *)

Section Strip.

Variable P : N -> Prop.

Lemma lstrip_Forall s : Forall P s -> Forall P (Py.lstrip s).
Proof.
  induction 1 as [|c s Hc Hs IH]; simpl; [constructor|].
  destruct (Py.is_space c); [exact IH | by constructor].
Qed.

Lemma rstrip_Forall s : Forall P s -> Forall P (Py.rstrip s).
Proof.
  induction 1 as [|c s Hc Hs IH]; simpl; [constructor|].
  destruct (Py.rstrip s) as [|d t].
  - destruct (Py.is_space c); repeat constructor; assumption.
  - by constructor.
Qed.

Lemma strip_Forall s : Forall P s -> Forall P (Py.strip s).
Proof. intros H. apply rstrip_Forall, lstrip_Forall, H. Qed.

End Strip.

Lemma rstrip_cons_keep c s :
  Py.is_space c = false -> Py.rstrip (c :: s) = c :: Py.rstrip s.
Proof. intros Hc. simpl. rewrite Hc. by destruct (Py.rstrip s). Qed.

Lemma rstrip_idempotent s : Py.rstrip (Py.rstrip s) = Py.rstrip s.
Proof.
  induction s as [|c s IH]; [reflexivity|].
  simpl. destruct (Py.rstrip s) as [|d t] eqn:E.
  - destruct (Py.is_space c) eqn:Hc; [reflexivity|].
    simpl. by rewrite Hc.
  - change (Py.rstrip (c :: d :: t)) with
      (match Py.rstrip (d :: t) with
       | [] => if Py.is_space c then [] else [c]
       | r => c :: r
       end).
    by rewrite IH.
Qed.

Lemma lstrip_head s :
  match Py.lstrip s with
  | [] => True
  | c :: _ => Py.is_space c = false
  end.
Proof.
  induction s as [|c s IH]; simpl; [exact I|].
  destruct (Py.is_space c) eqn:Hc; [exact IH | exact Hc].
Qed.

Lemma strip_idempotent s : Py.strip (Py.strip s) = Py.strip s.
Proof.
  unfold Py.strip.
  pose proof (lstrip_head s) as Hhd.
  destruct (Py.lstrip s) as [|c t]; [reflexivity|].
  rewrite (rstrip_cons_keep c t Hhd). simpl Py.lstrip. rewrite Hhd.
  rewrite (rstrip_cons_keep c _ Hhd). by rewrite rstrip_idempotent.
Qed.

(** ** Transliteration and case *)

Lemma table_ascii c : Forall (fun d => Py.is_ascii d = true) (Unidecode.table c).
Proof.
  unfold Unidecode.table, Unidecode.latin1, Unidecode.upper_or_lower.
  repeat case_match; simpl; repeat constructor.
Qed.

Section AnyTable.

Variable tbl : N -> pystr.
Hypothesis tbl_ascii : forall c, Forall (fun d => Py.is_ascii d = true) (tbl c).

Lemma unidecode_with_ascii s :
  Forall (fun d => Py.is_ascii d = true) (Unidecode.unidecode_with tbl s).
Proof.
  unfold Unidecode.unidecode_with. induction s as [|c s IH]; simpl; [constructor|].
  apply Forall_app. split; [|exact IH].
  unfold Unidecode.unidecode_cp. destruct (Py.is_ascii c) eqn:Hc.
  - by repeat constructor.
  - apply tbl_ascii.
Qed.

Lemma unidecode_with_of_ascii s :
  Forall (fun d => Py.is_ascii d = true) s -> Unidecode.unidecode_with tbl s = s.
Proof.
  unfold Unidecode.unidecode_with. induction 1 as [|c s Hc Hs IH]; simpl; [reflexivity|].
  unfold Unidecode.unidecode_cp at 1. rewrite Hc. simpl. by rewrite IH.
Qed.

End AnyTable.

Lemma unidecode_ascii s : Forall (fun d => Py.is_ascii d = true) (unidecode s).
Proof. apply unidecode_with_ascii, table_ascii. Qed.

Lemma unidecode_of_ascii s :
  Forall (fun d => Py.is_ascii d = true) s -> unidecode s = s.
Proof. apply unidecode_with_of_ascii. Qed.

(** Case analysis on the comparisons of code points in the goal. *)
Ltac cmp_cases :=
  repeat (match goal with
          | |- context [N.leb ?a ?b] => destruct (N.leb_spec a b)
          | |- context [N.ltb ?a ?b] => destruct (N.ltb_spec a b)
          | |- context [N.eqb ?a ?b] => destruct (N.eqb_spec a b)
          | H : context [N.leb ?a ?b] |- _ => destruct (N.leb_spec a b)
          | H : context [N.ltb ?a ?b] |- _ => destruct (N.ltb_spec a b)
          | H : context [N.eqb ?a ?b] |- _ => destruct (N.eqb_spec a b)
          end; simpl in *);
  try reflexivity; try discriminate; try lia.

Lemma lower_cp_ascii c : Py.is_ascii c = true -> Py.is_ascii (Py.lower_cp c) = true.
Proof.
  unfold Py.is_ascii, Py.lower_cp. intros H%N.ltb_lt. cmp_cases.
Qed.

Lemma lower_cp_idempotent c : Py.lower_cp (Py.lower_cp c) = Py.lower_cp c.
Proof.
  unfold Py.lower_cp. cmp_cases.
Qed.

Lemma lower_ascii s :
  Forall (fun d => Py.is_ascii d = true) s ->
  Forall (fun d => Py.is_ascii d = true) (Py.lower s).
Proof.
  unfold Py.lower. induction 1; simpl; constructor; auto using lower_cp_ascii.
Qed.

Lemma lower_fixed s : Forall (fun d => Py.lower_cp d = d) (Py.lower s).
Proof.
  unfold Py.lower. induction s; simpl; constructor; auto using lower_cp_idempotent.
Qed.

Lemma lower_of_fixed s : Forall (fun d => Py.lower_cp d = d) s -> Py.lower s = s.
Proof.
  unfold Py.lower. induction 1 as [|c s Hc Hs IH]; simpl; [reflexivity|].
  by rewrite Hc, IH.
Qed.

(** What [normalize] returns is ASCII, lowercase and stripped, so a second
    pass changes nothing, whatever the transliteration table holds. *)
Lemma normalize_with_fixed (tbl : N -> pystr) (t : pystr) :
  (forall c, Forall (fun d => Py.is_ascii d = true) (tbl c)) ->
  let y := Py.strip (Py.lower (Unidecode.unidecode_with tbl t)) in
  Py.strip (Py.lower (Unidecode.unidecode_with tbl y)) = y.
Proof.
  intros Htbl y.
  assert (Ha : Forall (fun d => Py.is_ascii d = true) y)
    by (apply strip_Forall, lower_ascii, unidecode_with_ascii, Htbl).
  assert (Hl : Forall (fun d => Py.lower_cp d = d) y)
    by apply strip_Forall, lower_fixed.
  rewrite (unidecode_with_of_ascii tbl y Ha), (lower_of_fixed y Hl).
  apply strip_idempotent.
Qed.

Lemma normalize_str_fixed (t : pystr) :
  let y := Py.strip (Py.lower (unidecode t)) in
  Py.strip (Py.lower (unidecode y)) = y.
Proof. apply normalize_with_fixed, table_ascii. Qed.

(** ** Normalisation: C3 and C4 *)

(** C4.  For every input [x] (a string or any other object),
    [normalize(normalize(x)) == normalize(x)], and [normalize(None)] is the
    empty string. *)
Theorem normalize_idempotent :
  (forall x : Py.obj, normalize (Py.Str (normalize x)) = normalize x)
  /\ normalize Py.None_ = [].
Proof.
  split; [|reflexivity].
  intros [|s|t]; [reflexivity| |]; apply normalize_str_fixed.
Qed.

(** C3 as the specification states it fails: the hyphen of ["tai-nan"]
    survives normalisation, the space of ["Tai Nạn"] does too, so the two
    results differ. *)
Lemma normalize_hyphen_differs :
  ~ (normalize (Py.Str u"Tai Nạn") = normalize (Py.Str u"tai-nan")
     /\ normalize (Py.Str u"tai-nan") = normalize (Py.Str u"TAI NAN")).
Proof. intros [H _]. vm_compute in H. discriminate H. Qed.

(** C3, amended.  [normalize("Tai Nạn")] and [normalize("TAI NAN")] are
    the same string, ["tai nan"]: normalisation does not see case or
    diacritics.  [normalize("tai-nan")] is ["tai-nan"]: the hyphen is
    kept. *)
Theorem normalize_case_and_diacritics :
  normalize (Py.Str u"Tai Nạn") = u"tai nan"
  /\ normalize (Py.Str u"TAI NAN") = u"tai nan"
  /\ normalize (Py.Str u"tai-nan") = u"tai-nan".
Proof. repeat split; reflexivity. Qed.

(** The three spellings meet again after resolution: each is a declared
    synonym of ["accident"]. *)
Lemma resolve_three_spellings :
  resolve (Py.Str u"Tai Nạn") = u"accident"
  /\ resolve (Py.Str u"tai-nan") = u"accident"
  /\ resolve (Py.Str u"TAI NAN") = u"accident".
Proof. repeat split; vm_compute; reflexivity. Qed.

(** ** The canonical lookup: C5 and C6 *)

Section Registry.

Implicit Types (m : gmap pystr pystr) (table : list (pystr * list pystr)).

Lemma register_category_snoc m canon syns s :
  register_category m (canon, syns ++ [s])
  = <[canonical_key s := canon]> (register_category m (canon, syns)).
Proof. unfold register_category. simpl. by rewrite foldl_app. Qed.

(** Registering a category leaves the keys it does not declare alone. *)
Lemma register_category_other m canon syns k :
  k ∉ keys_of syns ->
  register_category m (canon, syns) !! k = m !! k.
Proof.
  induction syns as [|s syns IH] using rev_ind; [reflexivity|].
  intros Hk. rewrite register_category_snoc.
  unfold keys_of in Hk. rewrite List.map_app in Hk. simpl in Hk.
  rewrite lookup_insert_ne.
  - apply IH. intros Hin. apply Hk. apply elem_of_app. by left.
  - intros Heq. apply Hk. apply elem_of_app. right.
    by apply list_elem_of_singleton.
Qed.

(** Every key it declares ends up at the category. *)
Lemma register_category_declared m canon syns k :
  k ∈ keys_of syns ->
  register_category m (canon, syns) !! k = Some canon.
Proof.
  induction syns as [|s syns IH] using rev_ind.
  - intros H. by apply elem_of_nil in H.
  - intros Hk. rewrite register_category_snoc.
    destruct (decide (canonical_key s = k)) as [->|Hne].
    + apply lookup_insert_eq.
    + rewrite lookup_insert_ne by exact Hne. apply IH.
      unfold keys_of in Hk. rewrite List.map_app in Hk.
      apply elem_of_app in Hk as [Hk|Hk]; [exact Hk|].
      apply list_elem_of_singleton in Hk. congruence.
Qed.

Lemma undeclared_keys table canon syns k :
  no_key_in table k -> (canon, syns) ∈ table -> k ∉ keys_of syns.
Proof.
  intros Hu Hin Hk. unfold keys_of in Hk.
  apply list_elem_of_In, in_map_iff in Hk as (s & Hs & Hin').
  apply (Hu canon syns s Hin); [by apply list_elem_of_In | exact Hs].
Qed.

Lemma foldl_register_other table m k :
  no_key_in table k ->
  foldl register_category m table !! k = m !! k.
Proof.
  revert m. induction table as [|[canon syns] table IH]; intros m Hu; [reflexivity|].
  simpl. rewrite IH.
  - apply register_category_other.
    apply (undeclared_keys _ canon syns k Hu). by left.
  - intros c y s Hin Hs. apply (Hu c y s); [by right | exact Hs].
Qed.

Lemma build_canonical_undeclared table k :
  no_key_in table k -> build_canonical table !! k = None.
Proof.
  intros Hu. unfold build_canonical. by rewrite foldl_register_other.
Qed.

Lemma build_canonical_last table before canon syns after s :
  table = before ++ (canon, syns) :: after ->
  s ∈ syns ->
  no_key_in after (canonical_key s) ->
  build_canonical table !! canonical_key s = Some canon.
Proof.
  intros -> Hs Hafter. unfold build_canonical.
  rewrite foldl_app. simpl.
  rewrite foldl_register_other by exact Hafter.
  apply register_category_declared.
  unfold keys_of. apply list_elem_of_In, in_map, list_elem_of_In, Hs.
Qed.

End Registry.

Lemma undeclared_in_no_key table k : undeclared_in table k -> no_key_in table k.
Proof.
  intros H canon syns s Hin Hs.
  unfold undeclared_in in H. rewrite Forall_forall in H.
  specialize (H _ Hin). simpl in H. rewrite Forall_forall in H. by apply H.
Qed.

(** *** Any table that extends the rows given *)

Lemma unidecode_with_known tbl s :
  Unidecode.extends tbl ->
  forallb Unidecode.known s = true ->
  Unidecode.unidecode_with tbl s = unidecode s.
Proof.
  intros Hext. unfold unidecode, Unidecode.unidecode_with.
  induction s as [|c s IH]; simpl; [reflexivity|].
  intros [Hc Hs]%andb_true_iff. rewrite (IH Hs). f_equal.
  unfold Unidecode.unidecode_cp, Unidecode.known in *.
  destruct (Py.is_ascii c); [reflexivity|]. by apply Hext.
Qed.

Lemma canonical_key_with_known tbl s :
  Unidecode.extends tbl ->
  forallb Unidecode.known s = true ->
  canonical_key_with tbl s = canonical_key s.
Proof.
  intros Hext Hs. unfold canonical_key_with, canonical_key.
  by rewrite (unidecode_with_known tbl s Hext Hs).
Qed.

Lemma normalize_with_known tbl s :
  Unidecode.extends tbl ->
  forallb Unidecode.known s = true ->
  normalize_with tbl (Py.Str s) = normalize (Py.Str s).
Proof.
  intros Hext Hs. unfold normalize_with, normalize. simpl.
  by rewrite (unidecode_with_known tbl s Hext Hs).
Qed.

(** Every synonym of the table is written in the known alphabet. *)
Lemma synonyms_known canon syns s :
  (canon, syns) ∈ CATEGORY_SYNONYMS -> s ∈ syns -> forallb Unidecode.known s = true.
Proof.
  assert (H : Forall (fun entry : pystr * list pystr =>
                        Forall (fun s => forallb Unidecode.known s = true) entry.2)
                     CATEGORY_SYNONYMS).
  { apply (bool_decide_unpack _). vm_compute. exact I. }
  intros Hin Hs. rewrite Forall_forall in H. specialize (H _ Hin). simpl in H.
  rewrite Forall_forall in H. by apply H.
Qed.

Lemma foldl_ext_in {A B} (f g : A -> B -> A) (l : list B) (a : A) :
  (forall a x, x ∈ l -> f a x = g a x) -> foldl f a l = foldl g a l.
Proof.
  revert a. induction l as [|x l IH]; intros a H; simpl; [reflexivity|].
  rewrite (H a x) by (by left). apply IH. intros a' y Hy. apply H. by right.
Qed.

(** The lookup does not depend on the rows that are not given: the
    synonyms never reach them. *)
Lemma build_canonical_with_extends tbl :
  Unidecode.extends tbl ->
  build_canonical_with tbl CATEGORY_SYNONYMS = CANONICAL.
Proof.
  intros Hext. unfold CANONICAL, build_canonical, build_canonical_with.
  apply foldl_ext_in. intros m [canon syns] Hin.
  unfold register_category_with, register_category. simpl.
  apply foldl_ext_in. intros m' s Hs.
  by rewrite (canonical_key_with_known tbl s Hext (synonyms_known _ _ _ Hin Hs)).
Qed.

(** C5 as the specification states it fails: ["hospitalization"] is
    declared under ["health"], yet it resolves to ["hospital"]. *)
Lemma resolve_hospitalization_not_health :
  ~ (forall canon syns s,
       (canon, syns) ∈ CATEGORY_SYNONYMS -> s ∈ syns -> resolve (Py.Str s) = canon).
Proof.
  intros H.
  set (syns := [ u"suc khoe"; u"sức khỏe"; u"suc-khoe"; u"health"; u"medical";
                 u"healthcare"; u"chăm sóc sức khỏe"; u"viện phí"; u"benh vien";
                 u"hospitalization" ]).
  assert (Hin : (u"health", syns) ∈ CATEGORY_SYNONYMS).
  { apply (bool_decide_unpack _). vm_compute. exact I. }
  assert (Hs : u"hospitalization" ∈ syns).
  { apply (bool_decide_unpack _). vm_compute. exact I. }
  specialize (H _ _ _ Hin Hs). vm_compute in H. discriminate H.
Qed.

(** C5, amended.  Resolving a synonym declared under a category [canon]
    returns [canon], except for the three synonyms of ["health"] that
    ["hospital"] declares again later ("viện phí", "benh vien",
    "hospitalization"): these resolve to ["hospital"].  An input whose
    normalised form is the normalised form of no declared synonym resolves
    to its own normalised form.  Both hold whatever unidecode's table
    holds outside the rows given here, hence for every input string. *)
Theorem resolve_declared_or_unknown (tbl : N -> pystr) :
  Unidecode.extends tbl ->
  (forall canon syns s,
     (canon, syns) ∈ CATEGORY_SYNONYMS -> s ∈ syns ->
     resolve_with tbl (Py.Str s) = resolved_category canon s)
  /\ (forall x : Py.obj,
        normalize_with tbl x ∉ declared_keys ->
        resolve_with tbl x = normalize_with tbl x).
Proof.
  intros Hext. split.
  - assert (H : Forall (fun entry : pystr * list pystr =>
                          Forall (fun s => resolve (Py.Str s) = resolved_category entry.1 s)
                                 entry.2) CATEGORY_SYNONYMS).
    { apply (bool_decide_unpack _). vm_compute. exact I. }
    intros canon syns s Hin Hs.
    unfold resolve_with.
    rewrite (build_canonical_with_extends tbl Hext).
    rewrite (normalize_with_known tbl s Hext (synonyms_known _ _ _ Hin Hs)).
    rewrite Forall_forall in H. specialize (H _ Hin). simpl in H.
    rewrite Forall_forall in H. by apply H.
  - intros x Hx. unfold resolve_with.
    rewrite (build_canonical_with_extends tbl Hext). unfold CANONICAL.
    rewrite build_canonical_undeclared; [reflexivity|].
    assert (Hkeys : forall canon syns s,
               (canon, syns) ∈ CATEGORY_SYNONYMS -> s ∈ syns ->
               canonical_key s ∈ declared_keys).
    { assert (H : Forall (fun entry : pystr * list pystr =>
                            Forall (fun s => canonical_key s ∈ declared_keys) entry.2)
                         CATEGORY_SYNONYMS).
      { apply (bool_decide_unpack _). vm_compute. exact I. }
      intros canon syns s Hin Hs.
      rewrite Forall_forall in H. specialize (H _ Hin). simpl in H.
      rewrite Forall_forall in H. by apply H. }
    intros canon syns s Hin Hs Heq. apply Hx. rewrite <- Heq. by eapply Hkeys.
Qed.

Lemma resolve_declared_or_unknown_witness :
  resolve_with latin_table (Py.Str u"medical") = u"health"
  /\ resolve_with latin_table (Py.Str u"viện phí") = u"hospital"
  /\ resolve_with latin_table (Py.Str u" Mañana — Xe Máy ") = u"manana -- xe may".
Proof.
  assert (Hext : Unidecode.extends latin_table).
  { intros c Hc. unfold latin_table.
    destruct (N.eqb_spec c 241) as [->|_]; [discriminate Hc|].
    destruct (N.eqb_spec c 8212) as [->|_]; [discriminate Hc|]. reflexivity. }
  assert (Hhealth : (u"health",
                      [ u"suc khoe"; u"sức khỏe"; u"suc-khoe"; u"health"; u"medical";
                        u"healthcare"; u"chăm sóc sức khỏe"; u"viện phí"; u"benh vien";
                        u"hospitalization" ]) ∈ CATEGORY_SYNONYMS).
  { apply (bool_decide_unpack _). vm_compute. exact I. }
  split; [|split].
  - apply (proj1 (resolve_declared_or_unknown latin_table Hext) _ _ u"medical" Hhealth).
    apply (bool_decide_unpack _). vm_compute. exact I.
  - apply (proj1 (resolve_declared_or_unknown latin_table Hext) _ _ u"viện phí" Hhealth).
    apply (bool_decide_unpack _). vm_compute. exact I.
  - apply (proj2 (resolve_declared_or_unknown latin_table Hext)
             (Py.Str u" Mañana — Xe Máy ")).
    apply (bool_decide_unpack _). vm_compute. exact I.
Defined.

(** C6.  When two categories declare synonyms with the same key, and the
    second is the last category of the table to declare that key, the
    canonical lookup built from the table maps the key to the second
    one. *)
Theorem last_registered_wins
    (table before between after : list (pystr * list pystr))
    (earlier later : pystr) (syns1 syns2 : list pystr) (s1 s2 : pystr) :
  table = before ++ (earlier, syns1) :: between ++ (later, syns2) :: after ->
  s1 ∈ syns1 ->
  s2 ∈ syns2 ->
  canonical_key s1 = canonical_key s2 ->
  undeclared_in after (canonical_key s2) ->
  build_canonical table !! canonical_key s1 = Some later.
Proof.
  intros Htable _ Hs2 Hkey Hafter. rewrite Hkey.
  apply (build_canonical_last table (before ++ (earlier, syns1) :: between)
           later syns2 after s2).
  - rewrite Htable. by rewrite <- app_assoc.
  - exact Hs2.
  - by apply undeclared_in_no_key.
Qed.

Lemma last_registered_wins_witness :
  CANONICAL !! canonical_key u"hospitalization" = Some u"hospital".
Proof.
  unfold CANONICAL.
  apply (last_registered_wins CATEGORY_SYNONYMS
           (firstn 1 CATEGORY_SYNONYMS)
           (firstn 2 (skipn 2 CATEGORY_SYNONYMS))
           (skipn 5 CATEGORY_SYNONYMS)
           u"health" u"hospital"
           [ u"suc khoe"; u"sức khỏe"; u"suc-khoe"; u"health"; u"medical";
             u"healthcare"; u"chăm sóc sức khỏe"; u"viện phí"; u"benh vien";
             u"hospitalization" ]
           [ u"bệnh viện"; u"benh vien"; u"hospital"; u"hospitalization"; u"nằm viện";
             u"viện phí"; u"medical cost"; u"inpatient"; u"outpatient"; u"ngoại trú";
             u"nội trú"; u"phẫu thuật"; u"surgery" ]
           u"hospitalization" u"hospitalization").
  - reflexivity.
  - apply (bool_decide_unpack _). vm_compute. exact I.
  - apply (bool_decide_unpack _). vm_compute. exact I.
  - reflexivity.
  - apply (bool_decide_unpack _). vm_compute. exact I.
Defined.

(** ** Reloading: C9 *)

Lemma load_csv_missing src :
  path_exists src = false -> load_csv src = inl FileNotFoundError.
Proof. intros H. unfold load_csv. by rewrite H. Qed.

Lemma load_csv_undecodable src :
  path_exists src = true -> (forall enc, read_csv src enc = None) ->
  load_csv src = inl RuntimeError.
Proof.
  intros He Hr. unfold load_csv, _read_csv_any. rewrite He. simpl.
  by rewrite !Hr.
Qed.

Lemma load_csv_no_category src df :
  path_exists src = true -> _read_csv_any src = inr df ->
  Frame.has_column u"Category" df = false ->
  load_csv src = inl ValueError_no_category.
Proof.
  intros He Hr Hc. unfold load_csv. rewrite He, Hr. simpl.
  unfold Frame.get_column, Frame.has_column in *.
  destruct (Frame.index_of _ (columns df)) as [i|] eqn:Hi; [|reflexivity].
  exfalso. apply bool_decide_eq_false in Hc. apply Hc. by exists i.
Qed.

(** C9.  A reload whose load fails, whatever the reason, leaves [df_cache]
    as it was and answers with the error response (status 400), which is
    not the success response; a missing source, a source no encoding can
    read and a table without a [Category] column each make the load
    fail. *)
Theorem reload_failure_keeps_cache (src : source) (df_cache : cache) :
  (forall e, load_csv src = inl e ->
     reload_csv src df_cache = (Failure 400 e, df_cache)
     /\ is_error (fst (reload_csv src df_cache)) = true
     /\ forall n, fst (reload_csv src df_cache) ≠ LoadedOk n)
  /\ ((path_exists src = false
       \/ (forall enc, read_csv src enc = None)
       \/ (exists df, _read_csv_any src = inr df
                      /\ Frame.has_column u"Category" df = false)) ->
      exists e, load_csv src = inl e).
Proof.
  split.
  - intros e He. unfold reload_csv. rewrite He. simpl.
    split; [reflexivity|]. split; [reflexivity|]. discriminate.
  - intros [Hm|[Hu|(df & Hr & Hc)]].
    + exists FileNotFoundError. by apply load_csv_missing.
    + destruct (path_exists src) eqn:He.
      * exists RuntimeError. by apply load_csv_undecodable.
      * exists FileNotFoundError. by apply load_csv_missing.
    + destruct (path_exists src) eqn:He.
      * exists ValueError_no_category. by eapply load_csv_no_category.
      * exists FileNotFoundError. by apply load_csv_missing.
Qed.

Example load_products : load_csv products_csv = inr products_loaded.
Proof. reflexivity. Qed.

Lemma reload_failure_keeps_cache_witness :
  reload_csv missing_csv (Some products_loaded)
    = (Failure 400 FileNotFoundError, Some products_loaded)
  /\ reload_csv malformed_csv (Some products_loaded)
    = (Failure 400 ValueError_no_category, Some products_loaded)
  /\ exists e, load_csv malformed_csv = inl e.
Proof.
  split; [|split].
  - apply (proj1 (reload_failure_keeps_cache missing_csv (Some products_loaded))).
    reflexivity.
  - apply (proj1 (reload_failure_keeps_cache malformed_csv (Some products_loaded))).
    reflexivity.
  - apply (proj2 (reload_failure_keeps_cache malformed_csv None)).
    right. right. eexists. split; reflexivity.
Defined.

(** ** Filtering and limits: C7 and C8 *)

Lemma select_all_true df :
  Frame.select (List.map (fun _ => true) (rows df)) df = df.
Proof.
  destruct df as [cols rs]. unfold Frame.select. simpl. f_equal.
  induction rs as [|r rs IH]; simpl; [reflexivity|]. by rewrite IH.
Qed.

Lemma to_records_head keep k df :
  Frame.to_records keep (Frame.head k df)
  = firstn (Z.to_nat k) (Frame.to_records keep df).
Proof. unfold Frame.to_records, Frame.head. simpl. by rewrite firstn_map. Qed.

Lemma build_mask_no_categories regex df :
  build_mask regex df (wanted_of []) = inr (List.map (fun _ => true) (rows df)).
Proof. unfold build_mask, wanted_of. simpl. by rewrite elements_empty. Qed.

(** Without categories and without a limit every row comes back. *)
Lemma recommend_loaded_everything regex df body :
  body = BodyFalsy \/ body = BodyDict CatFalsy LimAbsent
  \/ body = BodyDict (CatItems []) LimAbsent ->
  recommend_loaded regex df body = inr (Frame.to_records visible df).
Proof.
  intros [->|[->| ->]]; unfold recommend_loaded; simpl;
    rewrite build_mask_no_categories; simpl; by rewrite select_all_true.
Qed.

Lemma recommend_loaded_limit regex df categories limit_raw limit :
  parse_limit limit_raw = inr limit ->
  recommend_loaded regex df (BodyDict categories limit_raw)
  = let! items := recommend_loaded regex df (BodyDict categories LimAbsent) in
    ret (cut limit items).
Proof.
  intros Hl. unfold recommend_loaded. simpl. rewrite Hl. simpl.
  destruct categories as [|items|]; simpl; [| |reflexivity].
  - destruct (build_mask regex df (wanted_of [])); simpl; [reflexivity|].
    destruct limit; simpl; [|reflexivity]. by rewrite to_records_head.
  - destruct (build_mask regex df (wanted_of items)); simpl; [reflexivity|].
    destruct limit; simpl; [|reflexivity]. by rewrite to_records_head.
Qed.

Lemma recommend_limit src df_cache categories limit_raw limit :
  parse_limit limit_raw = inr limit ->
  recommend src df_cache (BodyDict categories limit_raw)
  = truncate limit (recommend src df_cache (BodyDict categories LimAbsent)).
Proof.
  intros Hl. unfold recommend.
  destruct (ensure_loaded src df_cache) as [e|[df|]]; [reflexivity| |reflexivity].
  rewrite (recommend_loaded_limit false df categories limit_raw limit Hl).
  by destruct (recommend_loaded false df (BodyDict categories LimAbsent)).
Qed.

Lemma truncate_none r : truncate None r = r.
Proof. by destruct r as [[items|n|h d] c]. Qed.

(** C7.  Once the data frame is loaded (already cached, or loaded by this
    very request), a request with no body, or with no categories (absent,
    null or empty) and no limit, gets a success response with one record
    per row of the data frame, in the order of the data frame; the record
    is the row without the internal [_category_n] column. *)
Theorem no_categories_returns_every_row
    (src : source) (df_cache : cache) (df : DataFrame) (body : request_body) :
  ensure_loaded src df_cache = inr (Some df) ->
  body = BodyFalsy \/ body = BodyDict CatFalsy LimAbsent
  \/ body = BodyDict (CatItems []) LimAbsent ->
  recommend src df_cache body
  = (RecommendOk (List.map (Frame.record visible (columns df)) (rows df)), Some df).
Proof.
  intros Hload Hbody. unfold recommend. rewrite Hload.
  by rewrite (recommend_loaded_everything false df body Hbody).
Qed.

Lemma no_categories_returns_every_row_witness :
  recommend products_csv None (BodyDict CatFalsy LimAbsent)
  = (RecommendOk
       [ [ (u"Name", Py.Str u"Gói A"); (u"Category", Py.Str u"Bảo hiểm sức khỏe toàn diện") ];
         [ (u"Name", Py.Str u"Plan B"); (u"Category", Py.Str u"Medical Plus") ];
         [ (u"Name", Py.Str u"Gói C"); (u"Category", Py.Str u"Bảo hiểm xe máy") ];
         [ (u"Name", Py.Str u"Plan D"); (u"Category", Py.nan) ];
         [ (u"Name", Py.Str u"Gói E"); (u"Category", Py.Str u"Du lịch quốc tế") ] ],
     Some products_loaded).
Proof.
  apply (no_categories_returns_every_row products_csv None products_loaded).
  - reflexivity.
  - right. left. reflexivity.
Defined.

(** C8.  For any cache and any categories, the limits ["all"], [0], [-5]
    (any integer not above zero), absent, and any string [int()] rejects
    give the response of the request without a limit; a positive integer
    [k] gives that response cut to its first [k] items. *)
Theorem limit_unlimited_or_first_k
    (src : source) (df_cache : cache) (categories : categories_field) :
  let unlimited := recommend src df_cache (BodyDict categories LimAbsent) in
  recommend src df_cache (BodyDict categories (LimStr u"all")) = unlimited
  /\ recommend src df_cache (BodyDict categories (LimInt 0)) = unlimited
  /\ recommend src df_cache (BodyDict categories (LimInt (-5))) = unlimited
  /\ (forall z, (z <= 0)%Z ->
        recommend src df_cache (BodyDict categories (LimInt z)) = unlimited)
  /\ (forall s, Py.int_of_str s = None ->
        recommend src df_cache (BodyDict categories (LimStr s)) = unlimited)
  /\ (forall k, (0 < k)%Z ->
        recommend src df_cache (BodyDict categories (LimInt k))
        = truncate (Some k) unlimited).
Proof.
  intros unlimited. subst unlimited.
  refine (conj _ (conj _ (conj _ (conj _ (conj _ _))))).
  - rewrite (recommend_limit _ _ _ (LimStr u"all") None); [apply truncate_none|reflexivity].
  - rewrite (recommend_limit _ _ _ (LimInt 0) None); [apply truncate_none|reflexivity].
  - rewrite (recommend_limit _ _ _ (LimInt (-5)) None); [apply truncate_none|reflexivity].
  - intros z Hz. rewrite (recommend_limit _ _ _ (LimInt z) None); [apply truncate_none|].
    simpl. unfold positive_or_none. by rewrite (proj2 (Z.leb_le z 0) Hz).
  - intros s Hs. rewrite (recommend_limit _ _ _ (LimStr s) None); [apply truncate_none|].
    simpl. rewrite Hs. by case_decide.
  - intros k Hk. apply recommend_limit.
    simpl. unfold positive_or_none. by rewrite (proj2 (Z.leb_gt k 0) Hk).
Qed.

Lemma limit_unlimited_or_first_k_witness :
  recommend products_csv None (BodyDict CatFalsy (LimStr u"abc"))
  = recommend products_csv None (BodyDict CatFalsy LimAbsent)
  /\ recommend products_csv None (BodyDict CatFalsy (LimInt 3))
  = (RecommendOk
       [ [ (u"Name", Py.Str u"Gói A"); (u"Category", Py.Str u"Bảo hiểm sức khỏe toàn diện") ];
         [ (u"Name", Py.Str u"Plan B"); (u"Category", Py.Str u"Medical Plus") ];
         [ (u"Name", Py.Str u"Gói C"); (u"Category", Py.Str u"Bảo hiểm xe máy") ] ],
     Some products_loaded).
Proof.
  pose proof (limit_unlimited_or_first_k products_csv None CatFalsy)
    as (_ & _ & _ & _ & Hstr & Hk).
  split.
  - apply Hstr. reflexivity.
  - rewrite Hk by lia. reflexivity.
Defined.

(** ** Matching: C1, C2 and C10 *)

(** In the literal mode of line 146 no element is ever found. *)
Lemma str_contains_literal pat x : str_contains pat false false x = false.
Proof. by destruct x. Qed.

Lemma zip_with_andb_false {A B} (l : list A) (k : list B) :
  length k = length l ->
  zip_with andb (List.map (fun _ => true) l) (List.map (fun _ => false) k)
  = List.map (fun _ => false) l.
Proof.
  revert k. induction l as [|a l IH]; intros [|b k] Hlen; simpl in *;
    try reflexivity; try discriminate.
  f_equal. apply IH. by injection Hlen.
Qed.

Lemma select_all_false df :
  Frame.select (List.map (fun _ => false) (rows df)) df
  = {| columns := columns df; rows := [] |}.
Proof.
  unfold Frame.select. f_equal.
  induction (rows df) as [|r rs IH]; simpl; [reflexivity|exact IH].
Qed.

(** As soon as the request yields a pattern, the mask of the source is
    false on every row. *)
Lemma build_mask_literal df wanted canon canons s syns :
  elements wanted = canon :: canons ->
  syns_norm_of (canon :: canons) = s :: syns ->
  is_Some (Frame.get_column hidden df) ->
  build_mask false df wanted = inr (List.map (fun _ => false) (rows df)).
Proof.
  intros He Hs [col Hcol]. unfold build_mask. rewrite He, Hs, Hcol.
  unfold ret. f_equal.
  unfold Frame.get_column in Hcol.
  destruct (Frame.index_of hidden (columns df)) as [i|]; [|discriminate].
  simpl in Hcol. injection Hcol as <-.
  rewrite List.map_map.
  rewrite (List.map_ext
             (fun r => str_contains (Alternation (s :: syns)) false false (nth i r Py.nan))
             (fun _ => false)) by (intros; apply str_contains_literal).
  by apply zip_with_andb_false.
Qed.

(** Whatever the limit, a request whose categories yield a pattern gets
    no item from the source. *)
Lemma recommend_loaded_literal df items limit_raw limit :
  is_Some (Frame.get_column hidden df) ->
  syns_norm_of (elements (wanted_of items)) ≠ [] ->
  parse_limit limit_raw = inr limit ->
  recommend_loaded false df (BodyDict (CatItems items) limit_raw) = inr [].
Proof.
  intros Hcol Hsyn Hl.
  rewrite (recommend_loaded_limit false df _ limit_raw limit Hl).
  unfold recommend_loaded. simpl.
  destruct (elements (wanted_of items)) as [|canon canons] eqn:He; [done|].
  destruct (syns_norm_of (canon :: canons)) as [|s syns] eqn:Hs; [done|].
  rewrite (build_mask_literal df _ canon canons s syns He Hs Hcol). simpl.
  rewrite select_all_false. unfold Frame.to_records. simpl.
  by destruct limit; simpl; rewrite ?firstn_nil.
Qed.

(** The limit parser raises on the floats that are not finite and on
    nothing else. *)
Lemma parse_limit_total limit_raw :
  (forall x, limit_raw = LimFloat x -> exists m e, x = Py.Finite m e) ->
  exists limit, parse_limit limit_raw = inr limit.
Proof.
  intros Hfin. destruct limit_raw as [|s|z|b|x|]; simpl; eauto.
  - case_decide; [|eauto]. destruct (Py.int_of_str s); eauto.
  - destruct (Hfin x eq_refl) as (m & e & ->). simpl. eauto.
Qed.

Lemma build_mask_total regex df wanted :
  is_Some (Frame.get_column hidden df) ->
  exists mask, build_mask regex df wanted = inr mask.
Proof.
  intros [col Hcol]. unfold build_mask. rewrite Hcol.
  destruct (elements wanted); [eauto|].
  destruct (syns_norm_of _); eauto.
Qed.

(** Apart from the non-finite limits, a request with a list of categories
    (or none) on a loaded data frame gets the success response. *)
Lemma recommend_succeeds src df categories limit_raw :
  is_Some (Frame.get_column hidden df) ->
  categories ≠ CatScalar ->
  (forall x, limit_raw = LimFloat x -> exists m e, x = Py.Finite m e) ->
  exists items,
    recommend src (Some df) (BodyDict categories limit_raw) = (RecommendOk items, Some df).
Proof.
  intros Hcol Hcat Hfin.
  destruct (parse_limit_total limit_raw Hfin) as [limit Hl].
  unfold recommend, recommend_loaded. simpl. rewrite Hl. simpl.
  destruct categories as [|items|]; [| |done]; simpl.
  - destruct (build_mask_total false df (wanted_of []) Hcol) as [mask ->]. simpl. eauto.
  - destruct (build_mask_total false df (wanted_of items) Hcol) as [mask ->]. simpl. eauto.
Qed.

(** *** What the loader caches *)

Lemma index_of_lt name cols i :
  Frame.index_of name cols = Some i -> (i < length cols)%nat.
Proof.
  revert i. induction cols as [|c cols IH]; intros i; simpl; [discriminate|].
  case_decide.
  - intros [= <-]. lia.
  - destruct (Frame.index_of name cols) as [j|]; simpl; [|discriminate].
    intros [= <-]. specialize (IH j eq_refl). lia.
Qed.

Lemma index_of_appended name cols :
  Frame.index_of name cols = None ->
  Frame.index_of name (cols ++ [name]) = Some (length cols).
Proof.
  induction cols as [|c cols IH]; simpl.
  - intros _. by case_decide.
  - case_decide; [discriminate|].
    destruct (Frame.index_of name cols); simpl; [discriminate|].
    intros _. by rewrite IH.
Qed.

Lemma index_of_None name cols : Frame.index_of name cols = None -> name ∉ cols.
Proof.
  induction cols as [|c cols IH]; simpl; intros H Hin.
  - by apply elem_of_nil in Hin.
  - case_decide; [discriminate|].
    destruct (Frame.index_of name cols); [discriminate|].
    apply elem_of_cons in Hin as [->|Hin]; [done|]. by apply IH.
Qed.

Lemma get_set_column name values df :
  rectangular df ->
  length values = length (rows df) ->
  Frame.get_column name (Frame.set_column name values df) = Some values.
Proof.
  destruct df as [cols rs]. unfold rectangular, Frame.get_column, Frame.set_column.
  simpl. intros Hrect Hlen.
  destruct (Frame.index_of name cols) as [i|] eqn:Hi; simpl.
  - rewrite Hi. simpl. f_equal.
    pose proof (index_of_lt _ _ _ Hi) as Hlt.
    revert values Hlen. induction Hrect as [|r rs Hr Hrs IH]; intros [|v values] Hlen;
      simpl in *; try reflexivity; try discriminate.
    rewrite IH by (by injection Hlen). f_equal.
    rewrite nth_lookup, list_lookup_insert_eq by lia. reflexivity.
  - rewrite (index_of_appended _ _ Hi). simpl. f_equal.
    revert values Hlen. induction Hrect as [|r rs Hr Hrs IH]; intros [|v values] Hlen;
      simpl in *; try reflexivity; try discriminate.
    rewrite IH by (by injection Hlen). f_equal.
    rewrite app_nth2 by lia. rewrite Hr, Nat.sub_diag. reflexivity.
Qed.

(** The hidden column holds [normalize] of every [Category] cell; the NaN
    of an empty cell is cached as the text ["nan"]. *)
Lemma load_csv_caches_normalized src table category :
  path_exists src = true ->
  _read_csv_any src = inr table ->
  rectangular table ->
  Frame.get_column u"Category" table = Some category ->
  exists df,
    load_csv src = inr df
    /\ Frame.get_column hidden df
       = Some (List.map (fun c => Py.Str (normalize c)) category).
Proof.
  intros He Hr Hrect Hcat. unfold load_csv. rewrite He, Hr. simpl. rewrite Hcat.
  eexists. split; [reflexivity|].
  apply get_set_column; [exact Hrect|].
  rewrite length_map. unfold Frame.get_column in Hcat.
  destruct (Frame.index_of _ (columns table)); [|discriminate].
  simpl in Hcat. injection Hcat as <-. by rewrite length_map.
Qed.

Lemma load_csv_caches_nan src table category i :
  path_exists src = true ->
  _read_csv_any src = inr table ->
  rectangular table ->
  Frame.get_column u"Category" table = Some category ->
  category !! i = Some Py.nan ->
  exists df cached,
    load_csv src = inr df
    /\ Frame.get_column hidden df = Some cached
    /\ cached !! i = Some (Py.Str u"nan").
Proof.
  intros He Hr Hrect Hcat Hi.
  destruct (load_csv_caches_normalized src table category He Hr Hrect Hcat)
    as (df & Hload & Hcol).
  exists df, (List.map (fun c => Py.Str (normalize c)) category).
  split; [exact Hload|]. split; [exact Hcol|].
  change (List.map ?f ?l) with (f <$> l). by rewrite list_lookup_fmap, Hi.
Qed.

(** *** The lines of the mask in regex mode *)

Lemma wanted_of_spec items canon :
  canon ∈ wanted_of items <-> exists c, c ∈ items /\ canon = resolve c.
Proof.
  unfold wanted_of.
  assert (H : forall (w : gset pystr),
             canon ∈ foldl (fun wanted c => wanted ∪ {[ resolve c ]}) w items
             <-> canon ∈ w \/ exists c, c ∈ items /\ canon = resolve c).
  { induction items as [|c items IH]; intros w; simpl.
    - split; [by left|]. intros [H|(c & Hc & _)]; [exact H|]. by apply elem_of_nil in Hc.
    - rewrite IH, elem_of_union, elem_of_singleton. split.
      + intros [[H|H]|(c' & Hc' & Heq)].
        * by left.
        * right. exists c. split; [by left|exact H].
        * right. exists c'. split; [by right|exact Heq].
      + intros [H|(c' & Hc' & Heq)].
        * left. by left.
        * apply elem_of_cons in Hc' as [->|Hc'].
          -- left. right. exact Heq.
          -- right. exists c'. split; assumption. }
  rewrite H. split; [|by right]. intros [Hw|Hc]; [|exact Hc].
  by apply elem_of_empty in Hw.
Qed.

Lemma dict_get_Some d k v : dict_get d k = Some v -> (k, v) ∈ d.
Proof.
  induction d as [|[k' v'] d IH]; simpl; [discriminate|].
  case_decide as Hk.
  - intros [= <-]. subst k'. by left.
  - intros H. right. by apply IH.
Qed.

(** No declared synonym is the empty string and no category is declared
    without synonyms, so only the empty request text expands to something
    the [if s] of line 143 drops. *)
Lemma expand_truthy canon :
  canon ≠ [] -> expand canon ≠ [] /\ Forall (fun s => truthy s = true) (expand canon).
Proof.
  intros Hne. unfold expand.
  destruct (dict_get CATEGORY_SYNONYMS canon) as [syns|] eqn:Hget; simpl.
  - apply dict_get_Some in Hget.
    assert (H : Forall (fun entry : pystr * list pystr =>
                          entry.2 ≠ [] /\ Forall (fun s => truthy s = true) entry.2)
                       CATEGORY_SYNONYMS).
    { apply (bool_decide_unpack _). vm_compute. exact I. }
    rewrite Forall_forall in H. exact (H _ Hget).
  - split; [discriminate|]. repeat constructor. by destruct canon.
Qed.

Lemma filter_all_true {A} (f : A -> bool) (l : list A) :
  Forall (fun a => f a = true) l -> List.filter f l = l.
Proof. induction 1 as [|a l Ha Hl IH]; simpl; [reflexivity|]. by rewrite Ha, IH. Qed.

Lemma zip_with_andb_true {A} (l : list A) (f : A -> bool) :
  zip_with andb (List.map (fun _ => true) l) (List.map f l) = List.map f l.
Proof. induction l as [|a l IH]; simpl; [reflexivity|]. by rewrite IH. Qed.

(** Had line 146 searched with the pattern, the mask would be the rule of
    the specification, row by row. *)
Lemma syns_norm_of_truthy (canons : list pystr) :
  Forall (fun s => truthy s = true) (flat_map expand canons) ->
  syns_norm_of canons
  = List.map (fun s => normalize (Py.Str s)) (flat_map expand canons).
Proof. intros H. unfold syns_norm_of. by rewrite (filter_all_true _ _ H). Qed.

Lemma build_mask_regex df items i :
  items ≠ [] ->
  Forall (fun c => resolve c ≠ []) items ->
  Frame.index_of hidden (columns df) = Some i ->
  build_mask true df (wanted_of items)
  = inr (List.map
           (fun r => match nth i r Py.nan with
                     | Py.Str s => spec_matches items s
                     | _ => false
                     end)
           (rows df)).
Proof.
  intros Hitems Hres Hi.
  unfold build_mask, Frame.get_column. rewrite Hi. cbn [mbind option_bind].
  assert (Hin : forall canon : pystr,
             canon ∈ elements (wanted_of items) <-> exists c, c ∈ items /\ canon = resolve c).
  { intros canon. rewrite elem_of_elements. apply wanted_of_spec. }
  generalize dependent (elements (wanted_of items)). intros W Hin.
  assert (Hcanon : forall canon : pystr, canon ∈ W -> canon ≠ []).
  { intros canon (c & Hc & ->)%Hin. rewrite Forall_forall in Hres. by apply Hres. }
  assert (Hall : Forall (fun s => truthy s = true) (flat_map expand W)).
  { apply Forall_forall. intros s Hs.
    apply list_elem_of_In, in_flat_map in Hs as (canon & Hc & Hs).
    apply list_elem_of_In in Hc, Hs.
    destruct (expand_truthy canon (Hcanon _ Hc)) as [_ Ht].
    rewrite Forall_forall in Ht. by apply Ht. }
  pose proof (syns_norm_of_truthy W Hall) as Hnorm.
  destruct W as [|canon canons].
  { exfalso. destruct items as [|c items]; [done|].
    assert (Hc : resolve c ∈ ([] : list pystr)).
    { apply Hin. exists c. split; [by left|reflexivity]. }
    by apply elem_of_nil in Hc. }
  cbv beta iota. rewrite Hnorm.
  destruct (List.map (fun s => normalize (Py.Str s)) (flat_map expand (canon :: canons)))
    as [|s syns] eqn:Hs.
  { exfalso. apply map_eq_nil in Hs. cbn [flat_map] in Hs.
    apply app_eq_nil in Hs as [Hs _].
    apply (proj1 (expand_truthy canon (Hcanon canon ltac:(by left)))). exact Hs. }
  unfold ret. f_equal. rewrite List.map_map, zip_with_andb_true.
  apply List.map_ext. intros r. unfold str_contains.
  destruct (nth i r Py.nan) as [|x|x]; try reflexivity.
  unfold re_search, spec_matches. rewrite <- Hs.
  apply eq_true_iff_eq. rewrite !existsb_exists. split.
  - intros (a & Ha & Hx).
    apply in_map_iff in Ha as (syn & <- & Hsyn).
    apply in_flat_map in Hsyn as (cn & Hcn & Hsyn).
    apply list_elem_of_In, Hin in Hcn as (c & Hc & ->).
    exists c. split; [by apply list_elem_of_In|].
    apply existsb_exists. exists syn. split; assumption.
  - intros (c & Hc & Hx).
    apply existsb_exists in Hx as (syn & Hsyn & Hx).
    exists (normalize (Py.Str syn)). split; [|exact Hx].
    apply in_map_iff. exists syn. split; [reflexivity|].
    apply in_flat_map. exists (resolve c). split; [|exact Hsyn].
    apply list_elem_of_In, Hin. exists c. split; [by apply list_elem_of_In|reflexivity].
Qed.

(** The records of a freshly loaded table are its rows, as long as the
    CSV has no column called [_category_n] itself. *)
Lemma record_appended cols r v :
  length r = length cols -> hidden ∉ cols ->
  Frame.record visible (cols ++ [hidden]) (r ++ [v]) = zip cols r.
Proof.
  intros Hlen Hh. unfold Frame.record.
  change zip with (zip_with (@pair pystr Py.obj)).
  assert (Hv : visible hidden = false).
  { unfold visible. apply bool_decide_eq_false_2. by intros []. }
  rewrite zip_with_app by (by symmetry). rewrite List.filter_app.
  cbn [zip_with List.filter fst]. rewrite Hv.
  rewrite app_nil_r. apply filter_all_true.
  revert r Hlen. induction cols as [|c cols IH]; intros [|x r] Hlen;
    simpl in *; try constructor; try discriminate.
  - simpl. unfold visible. apply bool_decide_eq_true_2.
    intros ->. apply Hh. by left.
  - apply IH; [|by injection Hlen]. intros Hin. apply Hh. by right.
Qed.

Lemma loaded_records_are_csv_rows src table :
  path_exists src = true ->
  _read_csv_any src = inr table ->
  rectangular table ->
  Frame.has_column u"Category" table = true ->
  Frame.index_of hidden (columns table) = None ->
  recommend src None BodyFalsy
  = (RecommendOk (List.map (zip (columns table)) (rows table)),
     match load_csv src with inr df => Some df | inl _ => None end).
Proof.
  intros He Hr Hrect Hcat Hh.
  unfold Frame.has_column in Hcat. apply bool_decide_eq_true in Hcat as [j Hj].
  unfold recommend, ensure_loaded, load_csv, Frame.get_column.
  rewrite He, Hr. simpl. rewrite Hj. simpl.
  rewrite (recommend_loaded_everything false _ BodyFalsy) by (by left).
  f_equal. f_equal.
  unfold Frame.to_records, Frame.set_column. rewrite Hh. simpl.
  apply index_of_None in Hh.
  destruct table as [cols rs]. unfold rectangular in Hrect. simpl in *.
  rewrite List.map_map. clear Hr.
  induction Hrect as [|r rs Hlen Hrs IH]; simpl; [reflexivity|].
  rewrite IH. f_equal. by apply record_appended.
Qed.

(** C1, on the code.  With the five products loaded, a request for the
    single category ["sức khỏe"] gets a success response with no item at
    all, although two rows satisfy the rule of the specification: the row
    of category ["Bảo hiểm sức khỏe toàn diện"] and the row whose category
    contains ["medical"].  Run in regex mode, the very same lines return
    these two rows. *)
Theorem recommend_suc_khoe_returns_nothing :
  let body := BodyDict (CatItems [Py.Str u"sức khỏe"]) LimAbsent in
  recommend products_csv None body = (RecommendOk [], Some products_loaded)
  /\ spec_matches [Py.Str u"sức khỏe"] u"bao hiem suc khoe toan dien" = true
  /\ spec_matches [Py.Str u"sức khỏe"] u"medical plus" = true
  /\ recommend_loaded true products_loaded body
     = inr [ [ (u"Name", Py.Str u"Gói A");
               (u"Category", Py.Str u"Bảo hiểm sức khỏe toàn diện") ];
             [ (u"Name", Py.Str u"Plan B"); (u"Category", Py.Str u"Medical Plus") ] ].
Proof. repeat split; vm_compute; reflexivity. Qed.

(** C2, on the code.  A limit that is a float infinity (the JSON number
    [1e999]) or a NaN makes [int()] raise on line 129, outside the [try] of
    lines 123-127, and the request ends in the error response of line 155;
    the same text sent as a string is caught and means unlimited. *)
Theorem recommend_infinite_limit_is_error (src : source) (df : DataFrame) :
  recommend src (Some df) (BodyDict CatFalsy (LimFloat (Py.Inf false)))
  = (Failure 500 OverflowError, Some df)
  /\ recommend src (Some df) (BodyDict CatFalsy (LimFloat Py.NaN))
     = (Failure 500 ValueError, Some df)
  /\ recommend src (Some df) (BodyDict CatFalsy (LimStr u"1e999"))
     = recommend src (Some df) (BodyDict CatFalsy LimAbsent).
Proof.
  split; [reflexivity|]. split; [reflexivity|].
  rewrite (recommend_limit _ _ _ (LimStr u"1e999") None); [apply truncate_none|].
  reflexivity.
Qed.

(** C10, on the code.  The row of the products whose [Category] cell is
    empty carries the cached text ["nan"], not the empty string, and the
    rule of the specification lets the request ["nan"] match it; the
    handler nevertheless returns no item, while the same lines in regex
    mode return that row. *)
Theorem missing_category_is_nan_but_unmatched :
  let body := BodyDict (CatItems [Py.Str u"nan"]) LimAbsent in
  normalize Py.nan = u"nan"
  /\ (r ← rows products_loaded !! 3%nat; r !! 2%nat) = Some (Py.Str u"nan")
  /\ spec_matches [Py.Str u"nan"] u"nan" = true
  /\ recommend products_csv None body = (RecommendOk [], Some products_loaded)
  /\ recommend_loaded true products_loaded body
     = inr [ [ (u"Name", Py.Str u"Plan D"); (u"Category", Py.nan) ] ].
Proof. repeat split; vm_compute; reflexivity. Qed.


(** * Further properties of the loader and the handlers *)

(** ** Reading and loading *)

Lemma first_readable_spec src encs :
  match first_readable src encs with
  | inr df =>
      exists before enc after,
        encs = before ++ enc :: after
        /\ read_csv src enc = Some df
        /\ Forall (fun e => read_csv src e = None) before
  | inl e => e = RuntimeError /\ Forall (fun enc => read_csv src enc = None) encs
  end.
Proof.
  induction encs as [|enc encs IH]; simpl.
  - split; [reflexivity|constructor].
  - destruct (read_csv src enc) as [df|] eqn:Hr.
    + exists [], enc, encs. repeat split; [exact Hr|constructor].
    + destruct (first_readable src encs) as [e|df].
      * destruct IH as [-> Hall]. split; [reflexivity|]. by constructor.
      * destruct IH as (before & enc' & after & -> & Hr' & Hb).
        exists (enc :: before), enc', after. repeat split; [exact Hr'|]. by constructor.
Qed.

Lemma read_csv_any_spec (src : source) :
  match _read_csv_any src with
  | inr df =>
      exists before enc after,
        [utf_8; utf_8_sig; cp1258; cp1252] = before ++ enc :: after
        /\ read_csv src enc = Some df
        /\ Forall (fun e => read_csv src e = None) before
  | inl e => e = RuntimeError /\ forall enc, read_csv src enc = None
  end.
Proof.
  unfold _read_csv_any.
  pose proof (first_readable_spec src [utf_8; utf_8_sig; cp1258; cp1252]) as H.
  destruct (first_readable src _) as [e|df]; [|exact H].
  destruct H as [-> Hall]. split; [reflexivity|].
  rewrite Forall_forall in Hall. intros enc. apply Hall.
  destruct enc; repeat constructor.
Qed.

(** X1.  [_read_csv_any] answers with what the first encoding that can
    read the file gives, in the order utf-8, utf-8-sig, cp1258, cp1252, and
    raises [RuntimeError] exactly when none of the four can. *)
Theorem read_csv_any_first_readable (src : source) :
  match _read_csv_any src with
  | inr df =>
      exists before enc after,
        [utf_8; utf_8_sig; cp1258; cp1252] = before ++ enc :: after
        /\ read_csv src enc = Some df
        /\ Forall (fun e => read_csv src e = None) before
  | inl e => e = RuntimeError /\ forall enc, read_csv src enc = None
  end.
Proof. apply read_csv_any_spec. Qed.




Lemma zip_with_length_same {A B C} (f : A -> B -> C) (l : list A) (k : list B) :
  length k = length l -> length (zip_with f l k) = length l.
Proof.
  revert k. induction l as [|a l IH]; intros [|b k] Hlen; simpl in *;
    try reflexivity; try discriminate.
  f_equal. apply IH. by injection Hlen.
Qed.

Lemma set_column_rows_length name values df :
  length values = length (rows df) ->
  length (rows (Frame.set_column name values df)) = length (rows df).
Proof.
  intros Hlen. unfold Frame.set_column.
  destruct (Frame.index_of name (columns df)); simpl; by apply zip_with_length_same.
Qed.

Lemma set_column_rectangular name values df :
  rectangular df -> rectangular (Frame.set_column name values df).
Proof.
  destruct df as [cols rs]. unfold rectangular, Frame.set_column. simpl.
  intros Hrect. destruct (Frame.index_of name cols) as [i|]; simpl.
  - revert values. induction Hrect as [|r rs Hr Hrs IH]; intros [|v values]; simpl;
      constructor; [by rewrite length_insert | apply IH].
  - revert values. induction Hrect as [|r rs Hr Hrs IH]; intros [|v values]; simpl;
      constructor; [|apply IH].
    rewrite !length_app. simpl. by rewrite Hr.
Qed.

Lemma index_of_app_other name other cols :
  other ≠ name ->
  Frame.index_of other (cols ++ [name]) = Frame.index_of other cols.
Proof.
  intros Hne. induction cols as [|c cols IH]; simpl.
  - case_decide; [congruence|reflexivity].
  - case_decide; [reflexivity|]. by rewrite IH.
Qed.

Lemma index_of_inj name other cols i :
  Frame.index_of name cols = Some i -> Frame.index_of other cols = Some i -> name = other.
Proof.
  revert i. induction cols as [|c cols IH]; intros i; simpl; [discriminate|].
  destruct (Frame.index_of name cols) as [j|], (Frame.index_of other cols) as [j'|];
    repeat case_decide; simpl; intros H1 H2; try congruence.
  injection H1 as <-. injection H2 as ->. by apply (IH j).
Qed.

(** Assigning one column leaves the cells of every other column alone. *)
Lemma get_set_column_other name other values df :
  other ≠ name ->
  rectangular df ->
  length values = length (rows df) ->
  Frame.get_column other (Frame.set_column name values df) = Frame.get_column other df.
Proof.
  destruct df as [cols rs]. unfold rectangular, Frame.get_column, Frame.set_column.
  simpl. intros Hne Hrect Hlen.
  destruct (Frame.index_of name cols) as [i|] eqn:Hi; simpl.
  - destruct (Frame.index_of other cols) as [j|] eqn:Hj; simpl; [|reflexivity].
    f_equal.
    assert (Hij : i ≠ j).
    { intros ->. apply Hne. symmetry. by eapply index_of_inj. }
    revert values Hlen. induction Hrect as [|r rs Hr Hrs IH]; intros [|v values] Hlen;
      simpl in *; try reflexivity; try discriminate.
    rewrite IH by (by injection Hlen). f_equal.
    rewrite !nth_lookup. by rewrite list_lookup_insert_ne.
  - rewrite (index_of_app_other _ _ _ Hne).
    destruct (Frame.index_of other cols) as [j|] eqn:Hj; simpl; [|reflexivity].
    f_equal. pose proof (index_of_lt _ _ _ Hj) as Hlt.
    revert values Hlen. induction Hrect as [|r rs Hr Hrs IH]; intros [|v values] Hlen;
      simpl in *; try reflexivity; try discriminate.
    rewrite IH by (by injection Hlen). f_equal.
    apply app_nth1. lia.
Qed.

Lemma get_column_length name df col :
  Frame.get_column name df = Some col -> length col = length (rows df).
Proof.
  unfold Frame.get_column. destruct (Frame.index_of name (columns df)); [|discriminate].
  simpl. intros [= <-]. apply length_map.
Qed.

(** X3.  What a successful [load_csv] returns, for a table as pandas reads
    it (one cell per column in every row): the frame is again rectangular
    and has as many rows as the table; its [_category_n] column holds
    [normalize] of the [Category] cell of each row, as a string; every
    other column, [Category] included, has the cells it had in the table. *)
Theorem load_csv_adds_normalized_column (src : source) (table df : DataFrame) :
  _read_csv_any src = inr table ->
  rectangular table ->
  load_csv src = inr df ->
  rectangular df
  /\ length (rows df) = length (rows table)
  /\ (exists category,
        Frame.get_column u"Category" table = Some category
        /\ Frame.get_column hidden df
           = Some (List.map (fun c => Py.Str (normalize c)) category))
  /\ (forall name, name ≠ hidden ->
        Frame.get_column name df = Frame.get_column name table).
Proof.
  intros Hr Hrect. unfold load_csv. rewrite Hr.
  destruct (path_exists src); simpl; [|discriminate].
  destruct (Frame.get_column u"Category" table) as [category|] eqn:Hcat; [|discriminate].
  intros [= <-].
  assert (Hlen : length (List.map (fun c => Py.Str (normalize c)) category)
                 = length (rows table)).
  { rewrite length_map. by eapply get_column_length. }
  split; [by apply set_column_rectangular|].
  split; [by apply set_column_rows_length|].
  split.
  - exists category. split; [reflexivity|]. by apply get_set_column.
  - intros name Hne. by apply get_set_column_other.
Qed.

Lemma load_csv_adds_normalized_column_witness :
  Frame.get_column hidden products_loaded
  = Some [ Py.Str u"bao hiem suc khoe toan dien"; Py.Str u"medical plus";
           Py.Str u"bao hiem xe may"; Py.Str u"nan"; Py.Str u"du lich quoc te" ]
  /\ Frame.get_column u"Name" products_loaded = Frame.get_column u"Name" products.
Proof.
  assert (Hrect : rectangular products) by (repeat constructor).
  destruct (load_csv_adds_normalized_column products_csv products products_loaded
              eq_refl Hrect eq_refl)
    as (_ & _ & (category & Hcat & Hhidden) & Hother).
  split.
  - rewrite Hhidden. injection Hcat as <-. reflexivity.
  - apply Hother. discriminate.
Defined.

Lemma reload_success_replaces_cache_aux (src : source) (table : DataFrame) (old : cache) :
  path_exists src = true ->
  _read_csv_any src = inr table ->
  Frame.has_column u"Category" table = true ->
  exists df,
    load_csv src = inr df
    /\ reload_csv src old = (LoadedOk (length (rows table)), Some df).
Proof.
  intros He Hr Hc. unfold reload_csv, load_csv. rewrite He, Hr. simpl.
  unfold Frame.has_column in Hc. apply bool_decide_eq_true in Hc as [i Hi].
  unfold Frame.get_column at 1 2. rewrite Hi. simpl.
  eexists. split; [reflexivity|]. f_equal. f_equal.
  apply set_column_rows_length. by rewrite !length_map.
Qed.

(** X4.  A reload that can read a table with a [Category] column answers
    with the number of rows of that table and puts the freshly loaded
    frame in the cache, whatever the cache held before. *)
Theorem reload_success_replaces_cache (src : source) (table : DataFrame) (old : cache) :
  path_exists src = true ->
  _read_csv_any src = inr table ->
  Frame.has_column u"Category" table = true ->
  exists df,
    load_csv src = inr df
    /\ reload_csv src old = (LoadedOk (length (rows table)), Some df).
Proof. apply reload_success_replaces_cache_aux. Qed.

Lemma reload_success_replaces_cache_witness :
  exists df,
    load_csv products_csv = inr df
    /\ reload_csv products_csv None = (LoadedOk 5, Some df).
Proof.
  apply (reload_success_replaces_cache products_csv products None); reflexivity.
Defined.

(** X5.  After a reload that failed, every [/recommend] request is
    answered from the snapshot that was cached before, exactly as it
    would have been without the reload, and the unreadable source is not
    looked at. *)
Theorem failed_reload_keeps_serving
    (broken src : source) (df : DataFrame) (body : request_body) :
  (exists e, load_csv broken = inl e) ->
  recommend broken (reload_csv broken (Some df)).2 body = recommend src (Some df) body.
Proof.
  intros [e He]. unfold reload_csv. rewrite He. reflexivity.
Qed.

Lemma failed_reload_keeps_serving_witness :
  recommend missing_csv (reload_csv missing_csv (Some products_loaded)).2
    (BodyDict CatFalsy (LimInt 1))
  = recommend products_csv (Some products_loaded) (BodyDict CatFalsy (LimInt 1)).
Proof.
  apply (failed_reload_keeps_serving missing_csv products_csv products_loaded).
  exists FileNotFoundError. reflexivity.
Defined.

(** ** The handlers and the cache *)

Lemma ensure_loaded_some src df_cache loaded :
  ensure_loaded src df_cache = inr loaded -> is_Some loaded.
Proof.
  unfold ensure_loaded. destruct df_cache as [df|].
  - intros [= <-]. by exists df.
  - destruct (load_csv src) as [e|df]; simpl; [discriminate|].
    intros [= <-]. by exists df.
Qed.

Lemma to_records_length keep df :
  length (Frame.to_records keep df) = length (rows df).
Proof. unfold Frame.to_records. apply length_map. Qed.

(** X6.  When [/healthz] answers ok with [n] rows, a [/recommend] request
    without a body made in the same state succeeds with exactly [n] items
    and leaves the same cache behind: the row count of the health check is
    the size of the unfiltered result. *)
Theorem healthz_rows_is_unfiltered_count
    (src : source) (df_cache loaded : cache) (n : nat) :
  healthz src df_cache = (LoadedOk n, loaded) ->
  exists items,
    recommend src df_cache BodyFalsy = (RecommendOk items, loaded)
    /\ length items = n.
Proof.
  unfold healthz, recommend.
  destruct (ensure_loaded src df_cache) as [e|c] eqn:Hl; [discriminate|].
  destruct (ensure_loaded_some _ _ _ Hl) as [df ->].
  intros [= <- <-].
  rewrite (recommend_loaded_everything false df BodyFalsy) by (by left).
  eexists. split; [reflexivity|]. apply to_records_length.
Qed.

Lemma healthz_rows_is_unfiltered_count_witness :
  exists items,
    recommend products_csv None BodyFalsy = (RecommendOk items, Some products_loaded)
    /\ length items = 5%nat.
Proof.
  apply (healthz_rows_is_unfiltered_count products_csv None (Some products_loaded) 5).
  reflexivity.
Defined.

(** X7.  What [/recommend] does to the cache does not depend on the request
    body, not even on whether the request succeeds: a loaded cache is left
    as it is, and an empty cache ends up holding the loaded frame exactly
    when [load_csv] succeeds.  [/healthz] has the same effect. *)
Theorem recommend_cache_effect (src : source) (df_cache : cache) (body : request_body) :
  (recommend src df_cache body).2
  = match df_cache with
    | Some df => Some df
    | None =>
        match load_csv src with
        | inr df => Some df
        | inl _ => None
        end
    end
  /\ (healthz src df_cache).2 = (recommend src df_cache body).2.
Proof.
  unfold recommend, healthz, ensure_loaded.
  destruct df_cache as [df|]; simpl.
  - by destruct (recommend_loaded false df body).
  - destruct (load_csv src) as [e|df]; simpl; [done|].
    by destruct (recommend_loaded false df body).
Qed.

(** X8.  With an empty cache and a source that cannot be loaded, all three
    endpoints report the exception of [load_csv] and leave the cache empty;
    [/recommend] does so for every body, before it looks at the body, and
    with status 500 like [/healthz], where [/reload] uses 400. *)
Theorem load_failure_reported_by_all (src : source) (e : exn) (body : request_body) :
  load_csv src = inl e ->
  recommend src None body = (Failure 500 e, None)
  /\ healthz src None = (Failure 500 e, None)
  /\ reload_csv src None = (Failure 400 e, None).
Proof.
  intros He. unfold recommend, healthz, reload_csv, ensure_loaded. rewrite He. done.
Qed.

Lemma load_failure_reported_by_all_witness :
  recommend missing_csv None BodyOther = (Failure 500 FileNotFoundError, None)
  /\ healthz missing_csv None = (Failure 500 FileNotFoundError, None)
  /\ reload_csv missing_csv None = (Failure 400 FileNotFoundError, None).
Proof.
  apply (load_failure_reported_by_all missing_csv FileNotFoundError BodyOther).
  reflexivity.
Defined.

Lemma parse_limit_raises limit_raw e :
  parse_limit limit_raw = inl e ->
  limit_raw = LimFloat Py.NaN \/ exists negative, limit_raw = LimFloat (Py.Inf negative).
Proof.
  destruct limit_raw as [|s|z|b|x|]; simpl; try discriminate.
  - case_decide; [|discriminate]. destruct (Py.int_of_str s); discriminate.
  - destruct x as [m ex|negative|]; simpl; [discriminate| |].
    + intros _. right. by exists negative.
    + intros _. by left.
Qed.

(** X9.  On a loaded frame that has its [_category_n] column, [/recommend]
    answers with an error in exactly four cases: decoding the JSON body
    raises (a body nested too deeply); the body is a truthy value that is
    not an object; the limit is a float NaN or infinity; or the categories
    are a truthy value that cannot be iterated (true, a non-zero
    number). *)
Theorem recommend_error_iff (src : source) (df : DataFrame) (body : request_body) :
  is_Some (Frame.get_column hidden df) ->
  is_error (recommend src (Some df) body).1 = true
  <-> body = BodyRaises
      \/ body = BodyOther
      \/ exists categories limit_raw,
           body = BodyDict categories limit_raw
           /\ (categories = CatScalar
               \/ limit_raw = LimFloat Py.NaN
               \/ exists negative, limit_raw = LimFloat (Py.Inf negative)).
Proof.
  intros Hcol. split.
  - destruct body as [|categories limit_raw| |]; [| |by right; left|by left].
    + unfold recommend, ensure_loaded, ret.
      rewrite (recommend_loaded_everything false df BodyFalsy) by (by left).
      discriminate.
    + intros Herr. right. right. exists categories, limit_raw. split; [reflexivity|].
      assert (Hdec : categories = CatScalar \/ categories ≠ CatScalar).
      { destruct categories; [right|right|left]; done. }
      destruct Hdec as [|Hcat]; [by left|]. right.
      destruct (parse_limit limit_raw) as [e|limit] eqn:Hl.
      { by apply parse_limit_raises in Hl. }
      exfalso.
      assert (Hfin : forall x, limit_raw = LimFloat x -> exists m ex, x = Py.Finite m ex).
      { intros x ->. destruct x as [m ex|negative|]; [by eauto| |]; discriminate. }
      destruct (recommend_succeeds src df categories limit_raw Hcol Hcat Hfin)
        as [items Hok].
      rewrite Hok in Herr. discriminate.
  - intros [->|[->|(categories & limit_raw & -> & [->|[->|[negative ->]]])]].
    + reflexivity.
    + reflexivity.
    + unfold recommend, recommend_loaded. simpl.
      by destruct (parse_limit limit_raw).
    + reflexivity.
    + reflexivity.
Qed.

Lemma recommend_error_iff_witness :
  is_error (recommend products_csv (Some products_loaded)
              (BodyDict CatScalar (LimInt 2))).1 = true
  /\ is_error (recommend products_csv (Some products_loaded) BodyRaises).1 = true.
Proof.
  split.
  - apply (proj2 (recommend_error_iff products_csv products_loaded
                    (BodyDict CatScalar (LimInt 2)) (mk_is_Some _ _ eq_refl))).
    right. right. exists CatScalar, (LimInt 2). split; [reflexivity|]. by left.
  - apply (proj2 (recommend_error_iff products_csv products_loaded
                    BodyRaises (mk_is_Some _ _ eq_refl))).
    by left.
Defined.

(** ** Limits and the shape of the result *)

Lemma lower_cp_a c : Py.lower_cp c = 97 -> c = 65 \/ c = 97.
Proof. unfold Py.lower_cp. cmp_cases. Qed.

(** What [int()] accepts consists of whitespace, signs, underscores and
    digits only. *)
Lemma lstrip_by_inv (space : N -> bool) (P : N -> Prop) s :
  Forall P (Py.lstrip_by space s) -> Forall (fun c => space c = true \/ P c) s.
Proof.
  induction s as [|c s IH]; simpl; [constructor|].
  destruct (space c) eqn:Hc.
  - intros H. constructor; [by left | by apply IH].
  - intros H. eapply Forall_impl; [exact H|]. intros x Hx. by right.
Qed.

Lemma rstrip_by_inv (space : N -> bool) (P : N -> Prop) s :
  Forall P (Py.rstrip_by space s) -> Forall (fun c => space c = true \/ P c) s.
Proof.
  induction s as [|c s IH]; simpl; [constructor|].
  destruct (Py.rstrip_by space s) as [|d t].
  - destruct (space c) eqn:Hc; intros H.
    + constructor; [by left | apply IH; constructor].
    + constructor; [right; by apply Forall_inv in H | apply IH; constructor].
  - intros H. apply Forall_cons in H as [Hc H].
    constructor; [by right | by apply IH].
Qed.

Lemma digits_from_inv acc after s v :
  Py.digits_from acc after s = Some v ->
  Forall (fun c => c = 95 \/ Py.is_digit c = true) s.
Proof.
  revert acc after. induction s as [|c s IH]; intros acc after; simpl; [constructor|].
  destruct (N.eqb_spec c 95) as [->|Hne].
  - destruct after; [|discriminate]. intros H. constructor; [by left | by eapply IH].
  - destruct (Py.digit_of c) as [d|] eqn:Hd; [|discriminate].
    intros H. constructor; [|by eapply IH].
    right. unfold Py.is_digit. by rewrite Hd.
Qed.

Lemma int_of_str_inv s k : Py.int_of_str s = Some k -> Forall int_char s.
Proof.
  unfold Py.int_of_str. intros H.
  set (t := Py.rstrip_by Py.is_int_space (Py.lstrip_by Py.is_int_space s)) in *.
  assert (Ht : Forall int_char t).
  { destruct (_ <? _); [discriminate|].
    destruct t as [|c t']; [constructor|].
    destruct (N.eqb_spec c 45) as [->|H45]; [|destruct (N.eqb_spec c 43) as [->|H43]];
      cbn [fst snd] in H;
      (destruct (Py.digits_from 0 false _) as [v|] eqn:Hd; [|discriminate]);
      apply digits_from_inv in Hd.
    - constructor; [right; by left|].
      eapply Forall_impl; [exact Hd|]. intros x [->|Hx]; unfold int_char; tauto.
    - constructor; [right; right; by left|].
      eapply Forall_impl; [exact Hd|]. intros x [->|Hx]; unfold int_char; tauto.
    - eapply Forall_impl; [exact Hd|]. intros x [->|Hx]; unfold int_char; tauto. }
  subst t. apply rstrip_by_inv, lstrip_by_inv in Ht.
  eapply Forall_impl; [exact Ht|]. intros x [Hx|[Hx|Hx]]; unfold int_char in *; tauto.
Qed.

(** A string that reads ["all"] after stripping and lowercasing is not a
    number for [int()]. *)
Lemma all_is_no_int s : Py.lower (Py.strip s) = u"all" -> Py.int_of_str s = None.
Proof.
  intros Hall. destruct (Py.int_of_str s) as [k|] eqn:Hk; [|reflexivity]. exfalso.
  apply int_of_str_inv in Hk. apply (strip_Forall int_char) in Hk.
  destruct (Py.strip s) as [|c t]; [discriminate|].
  injection Hall as Hc _. apply Forall_cons in Hk as [Hk _].
  destruct (lower_cp_a c Hc) as [-> | ->];
    destruct Hk as [Hk|[Hk|[Hk|[Hk|Hk]]]]; discriminate.
Qed.

Lemma parse_limit_numeric_string s k :
  Py.int_of_str s = Some k -> parse_limit (LimStr s) = parse_limit (LimInt k).
Proof.
  intros Hk. simpl. case_decide as Hall.
  - by rewrite Hk.
  - assert (Hall' : Py.lower (Py.strip s) = u"all").
    { destruct (decide (Py.lower (Py.strip s) = u"all")); [assumption|]. by exfalso. }
    rewrite (all_is_no_int s Hall') in Hk. discriminate.
Qed.

Lemma recommend_same_limit src df_cache categories raw1 raw2 :
  parse_limit raw1 = parse_limit raw2 ->
  recommend src df_cache (BodyDict categories raw1)
  = recommend src df_cache (BodyDict categories raw2).
Proof.
  intros H. unfold recommend, recommend_loaded. simpl. by rewrite H.
Qed.

(** X10.  A limit written as a string that [int()] accepts, as a JSON
    boolean or as a finite float acts as an integer limit: the number the
    string denotes, 1 for true and 0 for false, the float truncated
    towards zero. *)
Theorem limit_numeric_forms
    (src : source) (df_cache : cache) (categories : categories_field) :
  (forall s k, Py.int_of_str s = Some k ->
     recommend src df_cache (BodyDict categories (LimStr s))
     = recommend src df_cache (BodyDict categories (LimInt k)))
  /\ recommend src df_cache (BodyDict categories (LimBool true))
     = recommend src df_cache (BodyDict categories (LimInt 1))
  /\ recommend src df_cache (BodyDict categories (LimBool false))
     = recommend src df_cache (BodyDict categories (LimInt 0))
  /\ (forall m e,
        recommend src df_cache (BodyDict categories (LimFloat (Py.Finite m e)))
        = recommend src df_cache
            (BodyDict categories
               (LimInt (if (0 <=? e)%Z then m * 2 ^ e else Z.quot m (2 ^ (- e)))%Z))).
Proof.
  refine (conj _ (conj _ (conj _ _))).
  - intros s k Hk. apply recommend_same_limit. by apply parse_limit_numeric_string.
  - by apply recommend_same_limit.
  - by apply recommend_same_limit.
  - intros m e. by apply recommend_same_limit.
Qed.

Lemma limit_numeric_forms_witness :
  recommend products_csv None (BodyDict CatFalsy (LimStr u" +2 "))
  = recommend products_csv None (BodyDict CatFalsy (LimInt 2)).
Proof.
  apply (proj1 (limit_numeric_forms products_csv None CatFalsy) u" +2 " 2%Z).
  reflexivity.
Defined.

Lemma parse_limit_positive limit_raw k :
  parse_limit limit_raw = inr (Some k) -> (0 < k)%Z.
Proof.
  assert (Hp : forall v, positive_or_none v = Some k -> (0 < k)%Z).
  { intros v. unfold positive_or_none. destruct (Z.leb_spec v 0); [discriminate|].
    intros [= <-]. assumption. }
  destruct limit_raw as [|s|z|b|x|]; simpl; try discriminate.
  - case_decide as Hd; [|discriminate].
    destruct (Py.int_of_str s); [|discriminate]. intros [= Hv]. by eapply Hp.
  - intros [= Hv]. by eapply Hp.
  - intros [= Hv]. by eapply Hp.
  - destruct (Py.int_of_float x); [|discriminate]. intros [= Hv]. by eapply Hp.
Qed.

Lemma select_sublist mask df : sublist (rows (Frame.select mask df)) (rows df).
Proof.
  unfold Frame.select. simpl. revert mask.
  induction (rows df) as [|r rs IH]; intros [|b mask]; simpl;
    try apply sublist_nil_l.
  destruct b; simpl; [apply sublist_skip | apply sublist_cons]; apply IH.
Qed.

Lemma recommend_loaded_sublist regex df body items :
  recommend_loaded regex df body = inr items ->
  sublist items (Frame.to_records visible df).
Proof.
  unfold recommend_loaded.
  destruct (match body with
            | BodyFalsy => ret (CatFalsy, LimAbsent)
            | BodyDict categories limit => ret (categories, limit)
            | BodyOther => raise AttributeError
            | BodyRaises => raise RecursionError
            end) as [e|[categories limit_raw]]; simpl; [discriminate|].
  destruct (parse_limit limit_raw) as [e|limit]; simpl; [discriminate|].
  destruct (match categories with
            | CatFalsy => ret []
            | CatItems items => ret items
            | CatScalar => raise TypeError
            end) as [e|cs]; simpl; [discriminate|].
  destruct (build_mask regex df (wanted_of cs)) as [e|mask]; simpl; [discriminate|].
  intros [= <-]. unfold Frame.to_records.
  pose proof (select_sublist mask df) as Hsel.
  destruct limit as [k|]; cbn [columns rows Frame.head Frame.select] in *;
    change (List.map ?f ?l) with (f <$> l); apply fmap_sublist.
  - etrans; [apply sublist_take|]. exact Hsel.
  - exact Hsel.
Qed.

(** X11.  The items of a successful [/recommend] response are a
    subsequence of the records of the cached frame: rows are only left
    out, never reordered, repeated or invented, so there are never more
    items than rows. *)
Theorem recommend_items_are_a_subsequence
    (src : source) (df : DataFrame) (body : request_body)
    (items : list record_t) (after : cache) :
  recommend src (Some df) body = (RecommendOk items, after) ->
  sublist items (List.map (Frame.record visible (columns df)) (rows df))
  /\ (length items <= length (rows df))%nat.
Proof.
  unfold recommend, ensure_loaded, ret.
  destruct (recommend_loaded false df body) as [e|its] eqn:Hr; [discriminate|].
  intros [= <- <-].
  pose proof (recommend_loaded_sublist false df body its Hr) as Hsub.
  split; [exact Hsub|].
  apply sublist_length in Hsub. by rewrite to_records_length in Hsub.
Qed.

Lemma recommend_items_are_a_subsequence_witness :
  exists items,
    recommend products_csv (Some products_loaded) (BodyDict CatFalsy (LimInt 2))
    = (RecommendOk items, Some products_loaded)
    /\ sublist items
         (List.map (Frame.record visible (columns products_loaded)) (rows products_loaded))
    /\ (length items <= length (rows products_loaded))%nat.
Proof.
  eexists. split; [reflexivity|].
  apply (recommend_items_are_a_subsequence products_csv products_loaded
           (BodyDict CatFalsy (LimInt 2)) _ (Some products_loaded)).
  reflexivity.
Defined.

(** X12.  Whatever form the limit takes, when it is read as a number [k]
    the number is positive and a successful response has at most [k]
    items. *)
Theorem recommend_at_most_limit
    (src : source) (df_cache after : cache) (categories : categories_field)
    (limit_raw : limit_field) (k : Z) (items : list record_t) :
  parse_limit limit_raw = inr (Some k) ->
  recommend src df_cache (BodyDict categories limit_raw) = (RecommendOk items, after) ->
  (0 < k)%Z /\ (length items <= Z.to_nat k)%nat.
Proof.
  intros Hl Hr. split; [by eapply parse_limit_positive|].
  rewrite (recommend_limit src df_cache categories limit_raw (Some k) Hl) in Hr.
  destruct (recommend src df_cache (BodyDict categories LimAbsent)) as [[its|n|h d] c];
    simpl in Hr; try discriminate.
  injection Hr as <- _. apply firstn_le_length.
Qed.

Lemma recommend_at_most_limit_witness :
  exists items,
    recommend products_csv None (BodyDict CatFalsy (LimFloat (Py.Finite 5 (-1))))
    = (RecommendOk items, Some products_loaded)
    /\ (0 < 2)%Z /\ (length items <= Z.to_nat 2)%nat.
Proof.
  eexists. split; [reflexivity|].
  apply (recommend_at_most_limit products_csv None (Some products_loaded)
           CatFalsy (LimFloat (Py.Finite 5 (-1))) 2%Z).
  - reflexivity.
  - reflexivity.
Defined.

Lemma record_visible keep cols r kv :
  kv ∈ Frame.record keep cols r -> keep kv.1 = true.
Proof.
  unfold Frame.record. intros H. apply list_elem_of_In, filter_In in H. tauto.
Qed.

(** X13.  No item of a [/recommend] response carries the internal
    [_category_n] column. *)
Theorem recommend_hides_internal_column
    (src : source) (df_cache after : cache) (body : request_body)
    (items : list record_t) (item : record_t) (value : Py.obj) :
  recommend src df_cache body = (RecommendOk items, after) ->
  item ∈ items ->
  (hidden, value) ∉ item.
Proof.
  unfold recommend.
  destruct (ensure_loaded src df_cache) as [e|[df|]]; try discriminate.
  destruct (recommend_loaded false df body) as [e|its] eqn:Hr; [discriminate|].
  intros [= <- <-] Hitem Hin.
  pose proof (recommend_loaded_sublist false df body its Hr) as Hsub.
  assert (Hall : item ∈ Frame.to_records visible df).
  { eapply elem_of_sublist; eassumption. }
  unfold Frame.to_records in Hall.
  apply list_elem_of_In, in_map_iff in Hall as (r & <- & _).
  apply record_visible in Hin. simpl in Hin.
  unfold visible in Hin. by apply bool_decide_eq_true in Hin.
Qed.

Lemma recommend_hides_internal_column_witness :
  (hidden, Py.Str u"medical plus")
  ∉ [ (u"Name", Py.Str u"Plan B"); (u"Category", Py.Str u"Medical Plus") ].
Proof.
  apply (recommend_hides_internal_column products_csv None (Some products_loaded)
           (BodyDict CatFalsy (LimInt 2))
           [ [ (u"Name", Py.Str u"Gói A");
               (u"Category", Py.Str u"Bảo hiểm sức khỏe toàn diện") ];
             [ (u"Name", Py.Str u"Plan B"); (u"Category", Py.Str u"Medical Plus") ] ]).
  - reflexivity.
  - right. left.
Defined.

(** ** The registry and the resolver *)

Lemma register_category_inv m canon syns k c :
  register_category m (canon, syns) !! k = Some c ->
  m !! k = Some c \/ (c = canon /\ k ∈ keys_of syns).
Proof.
  induction syns as [|s syns IH] using rev_ind; [by left|].
  rewrite register_category_snoc.
  unfold keys_of. rewrite List.map_app. simpl.
  destruct (decide (canonical_key s = k)) as [<-|Hne].
  - rewrite lookup_insert_eq. intros [= <-]. right. split; [reflexivity|].
    apply elem_of_app. right. by apply list_elem_of_singleton.
  - rewrite lookup_insert_ne by exact Hne. intros H.
    destruct (IH H) as [Hm|[-> Hk]]; [by left|]. right. split; [reflexivity|].
    apply elem_of_app. by left.
Qed.

Lemma keys_of_elem syns k : k ∈ keys_of syns <-> exists s, s ∈ syns /\ canonical_key s = k.
Proof.
  unfold keys_of. rewrite list_elem_of_In, in_map_iff. split.
  - intros (s & Hs & Hin). exists s. by rewrite list_elem_of_In.
  - intros (s & Hin & Hs). exists s. by rewrite <- list_elem_of_In.
Qed.

Lemma foldl_register_inv table m k c :
  foldl register_category m table !! k = Some c ->
  m !! k = Some c
  \/ exists syns s, (c, syns) ∈ table /\ s ∈ syns /\ canonical_key s = k.
Proof.
  revert m. induction table as [|[canon syns] table IH]; intros m; simpl; [by left|].
  intros H. destruct (IH _ H) as [Hm|(syns' & s & Hin & Hs & Hk)].
  - destruct (register_category_inv _ _ _ _ _ Hm) as [Hm'|[-> Hk]]; [by left|].
    right. apply keys_of_elem in Hk as (s & Hs & Hk).
    exists syns, s. split; [by left|done].
  - right. exists syns', s. split; [by right|done].
Qed.

Lemma register_category_keeps m entry k :
  is_Some (m !! k) -> is_Some (register_category m entry !! k).
Proof.
  destruct entry as [canon syns]. intros Hm.
  induction syns as [|s syns IH] using rev_ind; [exact Hm|].
  rewrite register_category_snoc.
  destruct (decide (canonical_key s = k)) as [<-|Hne].
  - rewrite lookup_insert_eq. by eexists.
  - by rewrite lookup_insert_ne.
Qed.

Lemma foldl_register_keeps table m k :
  is_Some (m !! k) -> is_Some (foldl register_category m table !! k).
Proof.
  revert m. induction table as [|entry table IH]; intros m Hm; simpl; [exact Hm|].
  apply IH. by apply register_category_keeps.
Qed.

Lemma foldl_register_declared table m canon syns s :
  (canon, syns) ∈ table -> s ∈ syns ->
  is_Some (foldl register_category m table !! canonical_key s).
Proof.
  revert m. induction table as [|entry table IH]; intros m Hin Hs; simpl.
  - by apply elem_of_nil in Hin.
  - apply elem_of_cons in Hin as [<-|Hin].
    + apply foldl_register_keeps. exists canon.
      apply register_category_declared. apply keys_of_elem. by exists s.
    + by apply IH.
Qed.

Lemma build_canonical_sound table k canon :
  build_canonical table !! k = Some canon ->
  exists syns s, (canon, syns) ∈ table /\ s ∈ syns /\ canonical_key s = k.
Proof.
  intros H. unfold build_canonical in H.
  destruct (foldl_register_inv _ _ _ _ H) as [Hm|Hd]; [|exact Hd].
  by rewrite lookup_empty in Hm.
Qed.

(** X14.  For the loop of lines 55-58 over any synonym table: a key is in
    the lookup exactly when some category declares a synonym with that
    key, and the category it maps to is one of those that declare it. *)
Theorem canonical_lookup_domain (table : list (pystr * list pystr)) (k : pystr) :
  (forall canon,
     build_canonical table !! k = Some canon ->
     exists syns s, (canon, syns) ∈ table /\ s ∈ syns /\ canonical_key s = k)
  /\ (is_Some (build_canonical table !! k)
      <-> exists canon syns s, (canon, syns) ∈ table /\ s ∈ syns /\ canonical_key s = k).
Proof.
  split; [intros canon; apply build_canonical_sound|]. split.
  - intros [canon H]. exists canon. by apply build_canonical_sound.
  - intros (canon & syns & s & Hin & Hs & <-).
    unfold build_canonical. by eapply foldl_register_declared.
Qed.

Lemma canonical_lookup_domain_witness :
  exists syns s,
    (u"hospital", syns) ∈ CATEGORY_SYNONYMS /\ s ∈ syns
    /\ canonical_key s = u"vien phi".
Proof.
  apply (proj1 (canonical_lookup_domain CATEGORY_SYNONYMS u"vien phi") u"hospital").
  vm_compute. reflexivity.
Defined.

Lemma canonical_names_resolve_to_themselves canon syns :
  (canon, syns) ∈ CATEGORY_SYNONYMS -> resolve (Py.Str canon) = canon.
Proof.
  assert (H : Forall (fun entry : pystr * list pystr => resolve (Py.Str entry.1) = entry.1)
                     CATEGORY_SYNONYMS).
  { apply (bool_decide_unpack _). vm_compute. exact I. }
  rewrite Forall_forall in H. intros Hin. exact (H _ Hin).
Qed.

(** X15.  Resolution is idempotent: resolving what [resolve] returned, be
    it a canonical name or the normalised text of an unknown input, gives
    it back.  Every canonical name of the table is thus itself a key of
    the lookup. *)
Theorem resolve_idempotent (c : Py.obj) :
  resolve (Py.Str (resolve c)) = resolve c.
Proof.
  unfold resolve at 2 3.
  destruct (CANONICAL !! normalize c) as [canon|] eqn:Hc; simpl.
  - destruct (build_canonical_sound CATEGORY_SYNONYMS (normalize c) canon Hc)
      as (syns & _ & Hin & _).
    by eapply canonical_names_resolve_to_themselves.
  - assert (Hn : normalize (Py.Str (normalize c)) = normalize c).
    { destruct c as [|s|t]; [reflexivity| |]; apply normalize_str_fixed. }
    unfold resolve. by rewrite Hn, Hc.
Qed.

Lemma dict_get_unique d k v :
  NoDup (List.map fst d) -> (k, v) ∈ d -> dict_get d k = Some v.
Proof.
  induction d as [|[k' v'] d IH]; simpl; intros Hnd Hin.
  - by apply elem_of_nil in Hin.
  - apply NoDup_cons in Hnd as [Hk' Hnd].
    apply elem_of_cons in Hin as [[= -> ->]|Hin].
    + by case_decide.
    + case_decide as Hk; [|by apply IH]. subst k'. exfalso. apply Hk'.
      change (List.map ?f ?l) with (f <$> l). apply list_elem_of_fmap.
      by exists (k, v).
Qed.

(** X16.  When the lookup knows the normalised text of a request, the
    request expands to the declared synonym list of the category it
    resolves to (never to the one-element fallback), and that list
    contains a synonym whose key is the request's own normalised text.
    This holds whatever unidecode's table holds outside the rows given
    here. *)
Theorem resolved_request_expands_to_its_list
    (tbl : N -> pystr) (c : Py.obj) (canon : pystr) :
  Unidecode.extends tbl ->
  build_canonical_with tbl CATEGORY_SYNONYMS !! normalize_with tbl c = Some canon ->
  resolve_with tbl c = canon
  /\ exists syns s,
       (canon, syns) ∈ CATEGORY_SYNONYMS
       /\ expand (resolve_with tbl c) = syns
       /\ s ∈ syns
       /\ canonical_key_with tbl s = normalize_with tbl c.
Proof.
  intros Hext Hc.
  assert (Hres : resolve_with tbl c = canon) by (unfold resolve_with; by rewrite Hc).
  split; [exact Hres|].
  rewrite (build_canonical_with_extends tbl Hext) in Hc.
  destruct (build_canonical_sound CATEGORY_SYNONYMS (normalize_with tbl c) canon Hc)
    as (syns & s & Hin & Hs & Hk).
  exists syns, s. repeat split; try assumption.
  - rewrite Hres. unfold expand.
    rewrite (dict_get_unique _ canon syns); [reflexivity| |exact Hin].
    apply (bool_decide_unpack _). vm_compute. exact I.
  - by rewrite (canonical_key_with_known tbl s Hext (synonyms_known _ _ _ Hin Hs)).
Qed.

Lemma resolved_request_expands_to_its_list_witness :
  resolve_with latin_table (Py.Str u" Nằm Viện") = u"hospital"
  /\ exists syns s,
       (u"hospital", syns) ∈ CATEGORY_SYNONYMS
       /\ expand (resolve_with latin_table (Py.Str u" Nằm Viện")) = syns
       /\ s ∈ syns
       /\ canonical_key_with latin_table s = normalize_with latin_table (Py.Str u" Nằm Viện").
Proof.
  apply (resolved_request_expands_to_its_list latin_table (Py.Str u" Nằm Viện") u"hospital").
  - intros c Hc. unfold latin_table.
    destruct (N.eqb_spec c 241) as [->|_]; [discriminate Hc|].
    destruct (N.eqb_spec c 8212) as [->|_]; [discriminate Hc|]. reflexivity.
  - vm_compute. reflexivity.
Defined.

(** X17.  What [normalize] returns is plain ASCII without capital letters
    and without whitespace at either end, and [unidecode] leaves it as it
    is. *)
Theorem normalize_output_shape (x : Py.obj) :
  Forall (fun c => c < 128 /\ ~ (65 <= c <= 90)) (normalize x)
  /\ Py.strip (normalize x) = normalize x
  /\ unidecode (normalize x) = normalize x.
Proof.
  assert (Hshape : forall t : pystr,
             Forall (fun c => Py.is_ascii c = true /\ Py.lower_cp c = c)
                    (Py.strip (Py.lower (unidecode t)))).
  { intros t. apply strip_Forall. apply Forall_and. split.
    - apply lower_ascii, unidecode_ascii.
    - apply lower_fixed. }
  assert (Hgoal : forall t : pystr,
             let y := Py.strip (Py.lower (unidecode t)) in
             Forall (fun c => c < 128 /\ ~ (65 <= c <= 90)) y
             /\ Py.strip y = y /\ unidecode y = y).
  { intros t y. split; [|split].
    - eapply Forall_impl; [apply Hshape|]. intros c [Ha Hl]. split.
      + by apply N.ltb_lt.
      + intros [H1 H2]. unfold Py.lower_cp in Hl.
        rewrite (proj2 (N.leb_le 65 c) H1), (proj2 (N.leb_le c 90) H2) in Hl.
        simpl in Hl. lia.
    - apply strip_idempotent.
    - apply unidecode_of_ascii. eapply Forall_impl; [apply Hshape|]. by intros c [Ha _]. }
  destruct x as [|s|t]; [|apply Hgoal|apply Hgoal].
  split; [constructor|]. split; reflexivity.
Qed.

(** ** Requested categories *)


Lemma syns_norm_of_nonempty items c :
  c ∈ items -> resolve c ≠ [] ->
  syns_norm_of (elements (wanted_of items)) ≠ [].
Proof.
  intros Hc Hne Hnil.
  assert (Hin : resolve c ∈ elements (wanted_of items)).
  { apply elem_of_elements, wanted_of_spec. exists c. split; [assumption|reflexivity]. }
  destruct (expand_truthy (resolve c) Hne) as [Hexp Htruthy].
  destruct (expand (resolve c)) as [|syn syns] eqn:He;
    [exfalso; apply Hexp; reflexivity|].
  apply Forall_cons in Htruthy as [Hsyn _].
  assert (Hmem : In (normalize (Py.Str syn)) (syns_norm_of (elements (wanted_of items)))).
  { unfold syns_norm_of. apply (in_map (fun s => normalize (Py.Str s))).
    apply filter_In. split; [|exact Hsyn].
    apply in_flat_map. exists (resolve c). split; [by apply list_elem_of_In|].
    rewrite He. by left. }
  rewrite Hnil in Hmem. destruct Hmem.
Qed.

(** X19.  As the source stands, with [regex=False] on line 146: on a
    loaded frame, a request that names at least one category whose
    normalised text is not empty, with a limit that parses, gets a success
    response with no items, whatever the rows are. *)
Theorem recommend_with_a_category_returns_nothing
    (src : source) (df : DataFrame) (items : list Py.obj) (c : Py.obj)
    (limit_raw : limit_field) (limit : option Z) :
  is_Some (Frame.get_column hidden df) ->
  c ∈ items ->
  resolve c ≠ [] ->
  parse_limit limit_raw = inr limit ->
  recommend src (Some df) (BodyDict (CatItems items) limit_raw)
  = (RecommendOk [], Some df).
Proof.
  intros Hcol Hc Hne Hl. unfold recommend, ensure_loaded, ret.
  rewrite (recommend_loaded_literal df items limit_raw limit Hcol); [reflexivity| |exact Hl].
  by eapply syns_norm_of_nonempty.
Qed.

Lemma recommend_with_a_category_returns_nothing_witness :
  recommend products_csv (Some products_loaded)
    (BodyDict (CatItems [Py.Str u"du lịch"; Py.Str u"xe máy"]) (LimStr u"10"))
  = (RecommendOk [], Some products_loaded).
Proof.
  apply (recommend_with_a_category_returns_nothing products_csv products_loaded
           [Py.Str u"du lịch"; Py.Str u"xe máy"] (Py.Str u"xe máy")
           (LimStr u"10") (Some 10%Z)).
  - by eexists.
  - right. left.
  - vm_compute. discriminate.
  - reflexivity.
Defined.

Lemma syns_norm_of_blank (canons : list pystr) :
  Forall (fun canon => canon = []) canons -> syns_norm_of canons = [].
Proof.
  unfold syns_norm_of. induction 1 as [|canon canons -> _ IH]; [reflexivity|].
  simpl. exact IH.
Qed.

Lemma build_mask_blank regex df items :
  Forall (fun c => normalize c = []) items ->
  build_mask regex df (wanted_of items) = build_mask regex df (wanted_of []).
Proof.
  intros Hblank. rewrite build_mask_no_categories. unfold build_mask.
  assert (Hall : Forall (fun canon : pystr => canon = []) (elements (wanted_of items))).
  { apply Forall_forall. intros canon Hin.
    apply elem_of_elements, wanted_of_spec in Hin as (c & Hc & ->).
    rewrite Forall_forall in Hblank. unfold resolve. rewrite (Hblank c Hc).
    vm_compute. reflexivity. }
  pose proof (syns_norm_of_blank _ Hall) as Hs.
  destruct (elements (wanted_of items)) as [|canon canons]; [reflexivity|].
  cbv beta iota. by rewrite Hs.
Qed.

(** X20.  Categories written in the known alphabet whose normalised text
    is empty (null, the empty string, whitespace only) do not filter: a
    request that names nothing else is answered like a request without
    categories. *)
Theorem blank_categories_do_not_filter
    (src : source) (df_cache : cache) (items : list Py.obj) (limit_raw : limit_field) :
  Forall (fun c => forallb Unidecode.known (Py.str c) = true /\ normalize c = []) items ->
  recommend src df_cache (BodyDict (CatItems items) limit_raw)
  = recommend src df_cache (BodyDict CatFalsy limit_raw).
Proof.
  intros Hblank.
  assert (Hnorm : Forall (fun c => normalize c = []) items).
  { eapply Forall_impl; [exact Hblank|]. by intros c [_ Hc]. }
  unfold recommend, recommend_loaded. simpl.
  destruct (ensure_loaded src df_cache) as [e|[df|]]; try reflexivity.
  destruct (parse_limit limit_raw) as [e|limit]; simpl; [reflexivity|].
  by rewrite (build_mask_blank false df items Hnorm).
Qed.

Lemma blank_categories_do_not_filter_witness :
  recommend products_csv None
    (BodyDict (CatItems [Py.Str u"  "; Py.None_; Py.Str u""]) LimAbsent)
  = recommend products_csv None (BodyDict CatFalsy LimAbsent).
Proof.
  apply (blank_categories_do_not_filter products_csv None
           [Py.Str u"  "; Py.None_; Py.Str u""] LimAbsent).
  repeat constructor.
Defined.

(** ** From the CSV to the response *)

Lemma recommend_after_lazy_load src other df body :
  load_csv src = inr df ->
  recommend other (Some df) body = recommend src None body.
Proof. intros Hl. unfold recommend, ensure_loaded. rewrite Hl. reflexivity. Qed.

(** X21.  Round trip through the cache: after a successful reload of a
    table with a [Category] column and no column called [_category_n], a
    [/recommend] request without a body returns the rows of the CSV
    themselves, each as the record of its cells under the column names, in
    the order of the file. *)
Theorem reload_then_recommend_returns_csv_rows
    (src other : source) (table : DataFrame) (old : cache) :
  path_exists src = true ->
  _read_csv_any src = inr table ->
  rectangular table ->
  Frame.has_column u"Category" table = true ->
  Frame.has_column hidden table = false ->
  let loaded := (reload_csv src old).2 in
  recommend other loaded BodyFalsy
  = (RecommendOk (List.map (zip (columns table)) (rows table)), loaded).
Proof.
  intros He Hr Hrect Hcat Hhid loaded.
  assert (Hidx : Frame.index_of hidden (columns table) = None).
  { unfold Frame.has_column in Hhid. apply bool_decide_eq_false in Hhid.
    destruct (Frame.index_of hidden (columns table)) as [i|]; [|reflexivity].
    exfalso. apply Hhid. by exists i. }
  pose proof (loaded_records_are_csv_rows src table He Hr Hrect Hcat Hidx) as Hrec.
  destruct (reload_success_replaces_cache_aux src table old He Hr Hcat) as (df & Hl & Hre).
  subst loaded. rewrite Hre. simpl.
  rewrite (recommend_after_lazy_load src other df BodyFalsy Hl).
  rewrite Hrec, Hl. reflexivity.
Qed.

Lemma reload_then_recommend_returns_csv_rows_witness :
  recommend missing_csv (reload_csv products_csv None).2 BodyFalsy
  = (RecommendOk (List.map (zip (columns products)) (rows products)),
     (reload_csv products_csv None).2).
Proof.
  apply (reload_then_recommend_returns_csv_rows products_csv missing_csv products None);
    try reflexivity.
  repeat constructor.
Defined.
